(** * weather/main.py: the NWS request adapter and the two tool handlers

    A shallow embedding of [src/weather/main.py].  The values the handlers
    traverse are whatever [response.json()] produced, so they are modelled as
    Python objects ([pyval]); subscripting, membership, truthiness, iteration
    and slicing follow Python's rules for each type, including the exceptions
    they raise.  The network and the standard output are an explicit [world]
    threaded through a small state-and-exception monad. *)

From Stdlib Require Import ZArith List String Ascii Bool Lia.
From Stdlib Require Import Floats.PrimFloat.
From Stdlib Require DecimalString.
Import ListNotations.

Local Open Scope string_scope.
Local Open Scope Z_scope.

(** ** Python values *)

(** What [json.loads] can build: [None], [bool], [int], [float], [str],
    [list] and [dict].  A [str] is kept as its UTF-8 bytes, so the model
    holds text that UTF-8 can encode: a [str] with a lone surrogate (which
    [json.loads] builds from an unpaired escape) has no UTF-8 form and is
    outside it.  A [dict] keeps its items in insertion order; [json] never
    builds two items with one key, and lookup takes the first. *)
#[warnings="-register-all"]
Inductive pyval : Type :=
| PNone
| PBool (b : bool)
| PInt (n : Z)
| PFloat (x : float)
| PStr (s : string)
| PList (items : list pyval)
| PDict (items : list (string * pyval)).

(** The exceptions that the modelled code can meet.  All of them derive from
    Python's [Exception]. *)
Inductive pyexn : Type :=
| KeyError (key : string)
| TypeError
| KeyErrorSlice
| AttributeError
| InvalidURL (msg : string)
| TimeoutException
| TransportError (msg : string)
| HTTPStatusError (status_code : Z)
| JSONDecodeError.

Inductive result (A : Type) : Type :=
| Ok (a : A)
| Raise (e : pyexn).
Arguments Ok {A} a.
Arguments Raise {A} e.

Definition rbind {A B} (r : result A) (k : A -> result B) : result B :=
  match r with
  | Ok a => k a
  | Raise e => Raise e
  end.

(** ** Strings *)

Definition NL : string := String (ascii_of_nat 10) EmptyString.

(** [sep.join(parts)] *)
Definition join (sep : string) (parts : list string) : string :=
  String.concat sep parts.

Fixpoint starts_with (p s : string) : bool :=
  match p, s with
  | EmptyString, _ => true
  | String a p', String b s' => Ascii.eqb a b && starts_with p' s'
  | String _ _, EmptyString => false
  end.

(** [p in s] for two [str]: [p] occurs in [s] as a substring. *)
Fixpoint str_contains (p s : string) : bool :=
  starts_with p s ||
  match s with
  | EmptyString => false
  | String _ s' => str_contains p s'
  end.

(** A UTF-8 continuation byte, [0b10xxxxxx]. *)
Definition is_continuation (c : ascii) : bool :=
  let n := nat_of_ascii c in (Nat.leb 128 n && Nat.ltb n 192)%nat.

(** The characters (code points) of a [str], each as a one-character [str]:
    a byte opens a new character unless it is a continuation byte. *)
Fixpoint chars_aux (cur : string) (s : string) : list string :=
  match s with
  | EmptyString => [cur]
  | String c s' =>
      if is_continuation c
      then chars_aux (cur ++ String c EmptyString) s'
      else cur :: chars_aux (String c EmptyString) s'
  end.

Definition chars (s : string) : list string :=
  match s with
  | EmptyString => []
  | String c s' => chars_aux (String c EmptyString) s'
  end.

(** [str(n)] for an [int]. *)
Definition int_str (n : Z) : string :=
  DecimalString.NilEmpty.string_of_int (Z.to_int n).

(** ** Operations on values *)

Fixpoint lookup {A} (key : string) (items : list (string * A)) : option A :=
  match items with
  | [] => None
  | (k, v) :: rest => if String.eqb k key then Some v else lookup key rest
  end.

(** [bool(v)], as [not v] and [if v] use it. *)
Definition truthy (v : pyval) : bool :=
  match v with
  | PNone => false
  | PBool b => b
  | PInt n => negb (n =? 0)
  | PFloat x => negb (PrimFloat.eqb x 0%float)
  | PStr s => negb (String.eqb s "")
  | PList l => match l with [] => false | _ => true end
  | PDict d => match d with [] => false | _ => true end
  end.

Definition is_str (key : string) (v : pyval) : bool :=
  match v with
  | PStr s => String.eqb s key
  | _ => false
  end.

(** [key in v] for a [str] key: among the keys of a [dict], among the
    elements of a [list], as a substring of a [str]; the other types are not
    containers. *)
Definition py_in (key : string) (v : pyval) : result bool :=
  match v with
  | PDict d => Ok (match lookup key d with Some _ => true | None => false end)
  | PList l => Ok (existsb (is_str key) l)
  | PStr s => Ok (str_contains key s)
  | _ => Raise TypeError
  end.

(** [v[key]] for a [str] key. *)
Definition subscript (v : pyval) (key : string) : result pyval :=
  match v with
  | PDict d =>
      match lookup key d with
      | Some x => Ok x
      | None => Raise (KeyError key)
      end
  | _ => Raise TypeError
  end.

(** [v.get(key, default)]: only a [dict] has the method. *)
Definition dict_get (v : pyval) (key : string) (default : pyval) : result pyval :=
  match v with
  | PDict d =>
      match lookup key d with
      | Some x => Ok x
      | None => Ok default
      end
  | _ => Raise AttributeError
  end.

(** [v[:n]].  Slicing a [dict] looks the slice up as a key: up to CPython
    3.11 a slice cannot be hashed and the lookup raises [TypeError]; from
    3.12 on it can ([hashable_slices]) and the lookup raises [KeyError] for
    the slice, which no [dict] built from JSON has as a key. *)
Definition slice_to (hashable_slices : bool) (n : nat) (v : pyval) : result pyval :=
  match v with
  | PList l => Ok (PList (firstn n l))
  | PStr s => Ok (PStr (String.concat "" (firstn n (chars s))))
  | PDict _ => if hashable_slices then Raise KeyErrorSlice else Raise TypeError
  | _ => Raise TypeError
  end.

(** The elements [for x in v] visits. *)
Definition iterate (v : pyval) : result (list pyval) :=
  match v with
  | PList l => Ok l
  | PDict d => Ok (map (fun kv => PStr (fst kv)) d)
  | PStr s => Ok (map PStr (chars s))
  | _ => Raise TypeError
  end.

(** [[f(x) for x in xs]] where [f] may raise: left to right, stopping at the
    first exception. *)
Fixpoint map_result {A B} (f : A -> result B) (xs : list A) : result (list B) :=
  match xs with
  | [] => Ok []
  | x :: rest =>
      rbind (f x) (fun y => rbind (map_result f rest) (fun ys => Ok (y :: ys)))
  end.

(** ** The world: the network and the standard output *)

(** What [await client.get(url, headers=headers, timeout=30.0)] comes to for
    a URL string: the request times out, or fails in the transport, or httpx
    refuses the URL before it sends anything ([Refused]: a control character
    in the URL, a scheme or host it cannot use), or a response arrives. *)
Inductive http_outcome : Type :=
| TimedOut
| Failed (msg : string)
| Refused (msg : string)
| Response (status_code : Z) (content : string).

(** [requests]: the URL strings with which [client.get] was called, oldest
    first; each call sends at most one request, and none when its outcome is
    [Refused].  [stdout]: the texts printed, one per call of [print], oldest
    first; a text may span several lines. *)
Record world : Type := mkWorld {
  requests : list string;
  stdout : list string
}.

Definition M (A : Type) : Type := world -> result A * world.

Definition ret {A} (a : A) : M A := fun w => (Ok a, w).

Definition raise {A} (e : pyexn) : M A := fun w => (Raise e, w).

Definition bind {A B} (m : M A) (k : A -> M B) : M B :=
  fun w =>
    match m w with
    | (Ok a, w') => k a w'
    | (Raise e, w') => (Raise e, w')
    end.

Definition lift {A} (r : result A) : M A := fun w => (r, w).

(** [try: body  except Exception as e: handler(e)]; every [pyexn] is an
    [Exception]. *)
Definition try_except {A} (body : M A) (handler : pyexn -> M A) : M A :=
  fun w =>
    match body w with
    | (Ok a, w') => (Ok a, w')
    | (Raise e, w') => handler e w'
    end.

(** [print(line)].  The standard output is taken to accept the text, as a
    UTF-8 output accepts all the text of this model. *)
Definition print (line : string) : M unit :=
  fun w => (Ok tt, mkWorld (requests w) (stdout w ++ [line])).

Declare Scope py_scope.
Delimit Scope py_scope with py.
Notation "x <- m ;; k" := (bind m (fun x => k))
  (at level 61, m at next level, right associativity) : py_scope.
Notation "m ;;; k" := (bind m (fun _ => k))
  (at level 61, right associativity) : py_scope.

Local Open Scope py_scope.

(** ** The program *)

Definition NWS_API_BASE : string := "https://api.weather.gov".
Definition USER_AGENT : string := "weather-app/1.0".

(** The headers of every request; with the timeout of 30 seconds they are the
    same for all requests, so the transport below is asked by URL alone. *)
Definition headers : list (string * string) :=
  [("User-Agent", USER_AGENT); ("Accept", "application/geo+json")].

(** The separator of both handlers. *)
Definition SEPARATOR : string := NL ++ "---" ++ NL.

(** The degree sign of the forecast text, U+00B0, in UTF-8. *)
Definition DEGREE : string :=
  String (ascii_of_nat 194) (String (ascii_of_nat 176) EmptyString).

(** ** A sample runtime and network

    Concrete stand-ins for the runtime functions and the transport, on which
    the statements below are run. *)
Module Sample.

Definition DQ : string := String (ascii_of_nat 34) EmptyString.

(** [repr] on the floats used here. *)
Definition float_repr (x : float) : string :=
  if PrimFloat.eqb x 40.5%float then "40.5"
  else if PrimFloat.eqb x (-105.5)%float then "-105.5"
  else "0.0".

(** [repr] of a [str] without quotes, backslashes or control characters. *)
Definition str_repr (s : string) : string := "'" ++ s ++ "'".

Definition exn_str (e : pyexn) : string :=
  match e with
  | KeyError key => str_repr key
  | TypeError => "Invalid type for url."
  | KeyErrorSlice => "slice(None, 5, None)"
  | AttributeError => "object has no attribute 'get'"
  | InvalidURL msg => msg
  | TimeoutException => ""
  | TransportError msg => msg
  | HTTPStatusError status_code => "Error response " ++ int_str status_code
  | JSONDecodeError => "Expecting value: line 1 column 1 (char 0)"
  end.

(** JSON text of a value whose strings need no escaping. *)
Fixpoint dumps (v : pyval) : string :=
  match v with
  | PNone => "null"
  | PBool true => "true"
  | PBool false => "false"
  | PInt n => int_str n
  | PFloat x => float_repr x
  | PStr s => DQ ++ s ++ DQ
  | PList l => "[" ++ join ", " (map dumps l) ++ "]"
  | PDict d =>
      "{" ++ join ", " (map (fun kv => DQ ++ fst kv ++ DQ ++ ": " ++ dumps (snd kv)) d)
          ++ "}"
  end.

Definition alert (event severity : string) : pyval :=
  PDict [("type", PStr "Feature");
         ("properties",
          PDict [("event", PStr event); ("areaDesc", PStr "Boulder County");
                 ("severity", PStr severity);
                 ("description", PStr "Heavy snow expected.")])].

Definition two_alerts : pyval :=
  PDict [("type", PStr "FeatureCollection");
         ("features", PList [alert "Winter Storm Warning" "Severe";
                             alert "Wind Advisory" "Moderate"])].

Definition no_alerts : pyval :=
  PDict [("type", PStr "FeatureCollection"); ("features", PList [])].

Definition no_features : pyval := PDict [("title", PStr "Not Found")].

Definition bare_feature : pyval := PDict [("features", PList [PDict []])].

Definition quiet_alert : pyval :=
  PDict [("properties",
          PDict [("event", PStr "Flood Watch"); ("areaDesc", PStr "Larimer County")])].

Definition forecast_url : string :=
  "https://api.weather.gov/gridpoints/BOU/63,62/forecast".

Definition point : pyval :=
  PDict [("properties", PDict [("forecast", PStr forecast_url)])].

Definition point_without_forecast : pyval :=
  PDict [("properties", PDict [("gridId", PStr "BOU")])].

Definition period (name : string) (temperature : Z) : pyval :=
  PDict [("name", PStr name); ("temperature", PInt temperature);
         ("temperatureUnit", PStr "F"); ("windSpeed", PStr "5 mph");
         ("windDirection", PStr "NW"); ("detailedForecast", PStr "Clear.")].

Definition week : list pyval :=
  [period "Today" 61; period "Tonight" 38; period "Monday" 64;
   period "Monday Night" 40; period "Tuesday" 58; period "Tuesday Night" 35;
   period "Wednesday" 55].

Definition forecast_of (periods : list pyval) : pyval :=
  PDict [("properties", PDict [("periods", PList periods)])].

Definition forecast_without_periods : pyval :=
  PDict [("properties", PDict [("units", PStr "us")])].

Definition documents : list pyval :=
  [PNone; PInt 5; PDict []; two_alerts; no_alerts; no_features; bare_feature;
   point; point_without_forecast; forecast_of week; forecast_of [];
   forecast_without_periods].

(** The parser on the documents above; any other text is refused. *)
Definition json_loads (body : string) : option pyval :=
  find (fun v => String.eqb (dumps v) body) documents.

(** A network that answers by URL from a table and refuses the
    connection otherwise. *)
Definition transport (table : list (string * http_outcome))
    (before : list string) (url : string) : http_outcome :=
  match lookup url table with
  | Some outcome => outcome
  | None => Failed "All connection attempts failed"
  end.

Definition ok (v : pyval) : http_outcome := Response 200 (dumps v).

Definition w0 : world := mkWorld [] [].

(** CPython 3.12 or later. *)
Definition hashable_slices : bool := true.

Definition alerts_CA : string := "https://api.weather.gov/alerts/active/area/CA".
Definition points_here : string := "https://api.weather.gov/points/40.5,-105.5".

End Sample.

(** Further documents, for the edges of the handlers. *)
Module Edge.

Definition null_features : pyval := PDict [("features", PNone)].

Definition point_with_null_url : pyval :=
  PDict [("properties", PDict [("forecast", PNone)])].

(** Five periods, and then something that is not a period. *)
Definition five_then_junk : list pyval :=
  [Sample.period "Today" 61; Sample.period "Tonight" 38; Sample.period "Monday" 64;
   Sample.period "Monday Night" 40; Sample.period "Tuesday" 58; PStr "junk"].

(** A period without its temperature and its wind speed. *)
Definition partial_period : list (string * pyval) :=
  [("name", PStr "Today"); ("temperatureUnit", PStr "F");
   ("windDirection", PStr "NW"); ("detailedForecast", PStr "Clear.")].

(** An alert with fields [formatAlert] does not read. *)
Definition tagged_alert : list (string * pyval) :=
  [("id", PStr "urn:oid:2.49.0.1.840.0"); ("type", PStr "Feature");
   ("properties",
    PDict [("headline", PStr "Flood Watch issued"); ("event", PStr "Flood Watch");
           ("areaDesc", PStr "Larimer County"); ("urgency", PStr "Future")])].

(** A forecast answer whose [periods] is an object, not a list. *)
Definition keyed_periods : pyval :=
  PDict [("properties",
          PDict [("periods", PDict [("0", Sample.period "Today" 61)])])].

Definition documents : list pyval :=
  (Sample.documents ++
   [PList []; null_features; point_with_null_url;
    Sample.forecast_of five_then_junk; keyed_periods])%list.

Definition json_loads (body : string) : option pyval :=
  find (fun v => String.eqb (Sample.dumps v) body) documents.

End Edge.

Section Weather.

(** The Python runtime and the libraries the program calls: [repr] of a
    [float] and of a [str], [str] of an exception, and the JSON parser
    behind [response.json()] ([None] when it raises). *)
Variable float_repr : float -> string.
Variable str_repr : string -> string.
Variable exn_str : pyexn -> string.
Variable json_loads : string -> option pyval.

(** The network: what the transport answers to a GET of a URL, given the
    URLs requested before it. *)
Variable transport : list string -> string -> http_outcome.

(** The interpreter: whether a slice can be hashed (CPython 3.12 and
    later). *)
Variable hashable_slices : bool.

(** [repr(v)] *)
Fixpoint py_repr (v : pyval) : string :=
  match v with
  | PNone => "None"
  | PBool true => "True"
  | PBool false => "False"
  | PInt n => int_str n
  | PFloat x => float_repr x
  | PStr s => str_repr s
  | PList l => "[" ++ join ", " (map py_repr l) ++ "]"
  | PDict d =>
      "{" ++ join ", " (map (fun kv => str_repr (fst kv) ++ ": " ++ py_repr (snd kv)) d)
          ++ "}"
  end.

(** [str(v)], which is what a replacement field [{v}] of an f-string
    inserts: a [str] as it is, anything else as its [repr]. *)
Definition py_str (v : pyval) : string :=
  match v with
  | PStr s => s
  | _ => py_repr v
  end.

(** [await client.get(url, headers=headers, timeout=30.0)]: the call is
    recorded with its URL string, and the transport answers or httpx
    raises.  httpx refuses a URL that is not a [str] with a [TypeError]
    before any request is made. *)
Definition client_get (url : pyval) : M (Z * string) :=
  match url with
  | PStr u =>
      fun w =>
        let w' := mkWorld (requests w ++ [u]) (stdout w) in
        match transport (requests w) u with
        | TimedOut => (Raise TimeoutException, w')
        | Failed msg => (Raise (TransportError msg), w')
        | Refused msg => (Raise (InvalidURL msg), w')
        | Response status_code content => (Ok (status_code, content), w')
        end
  | _ => raise TypeError
  end.

(** [response.is_success] *)
Definition is_success (status_code : Z) : bool :=
  (200 <=? status_code) && (status_code <=? 299).

(** [response.raise_for_status()] *)
Definition raise_for_status (response : Z * string) : M unit :=
  if is_success (fst response) then ret tt
  else raise (HTTPStatusError (fst response)).

(** [response.json()] *)
Definition response_json (response : Z * string) : M pyval :=
  match json_loads (snd response) with
  | Some v => ret v
  | None => raise JSONDecodeError
  end.

Definition makeNwsRequest (url : pyval) : M pyval :=
  try_except
    (response <- client_get url ;;
     raise_for_status response ;;;
     response_json response)
    (fun e =>
       print ("Error making request to " ++ py_str url ++ ": " ++ exn_str e) ;;;
       ret PNone).

Definition formatAlert (feature : pyval) : result string :=
  rbind (subscript feature "properties") (fun props =>
  rbind (dict_get props "event" (PStr "Unknown")) (fun event =>
  rbind (dict_get props "areaDesc" (PStr "Unknown")) (fun areaDesc =>
  rbind (dict_get props "severity" (PStr "Unknown")) (fun severity =>
  rbind (dict_get props "description" (PStr "No description available"))
    (fun description =>
  rbind (dict_get props "instruction" (PStr "No specific instructions provided"))
    (fun instruction =>
  Ok (NL ++ "    Event: " ++ py_str event ++
      NL ++ "    Area: " ++ py_str areaDesc ++
      NL ++ "    Severity: " ++ py_str severity ++
      NL ++ "    Description: " ++ py_str description ++
      NL ++ "    Instructions: " ++ py_str instruction ++
      NL ++ "    "))))))).

(** [getAlerts] from the line after the request on. *)
Definition alerts_text (data : pyval) : result string :=
  rbind (if negb (truthy data) then Ok true
         else rbind (py_in "features" data) (fun found => Ok (negb found)))
    (fun unusable =>
  if unusable then Ok "Unable to fetch alerts or no alerts found."
  else
    rbind (subscript data "features") (fun features =>
    if negb (truthy features) then Ok "No active alerts for this state."
    else
      rbind (subscript data "features") (fun features =>
      rbind (iterate features) (fun items =>
      rbind (map_result formatAlert items) (fun alerts =>
      Ok (join SEPARATOR alerts)))))).

Definition getAlerts (state : string) : M string :=
  let url := NWS_API_BASE ++ "/alerts/active/area/" ++ state in
  data <- makeNwsRequest (PStr url) ;;
  lift (alerts_text data).

(** The f-string of the loop body of [getForecast]. *)
Definition forecast_entry (period : pyval) : result string :=
  rbind (subscript period "name") (fun name =>
  rbind (subscript period "temperature") (fun temperature =>
  rbind (subscript period "temperatureUnit") (fun temperatureUnit =>
  rbind (subscript period "windSpeed") (fun windSpeed =>
  rbind (subscript period "windDirection") (fun windDirection =>
  rbind (subscript period "detailedForecast") (fun detailedForecast =>
  Ok (NL ++ "            " ++ py_str name ++ ":" ++
      NL ++ "            Temperature: " ++ py_str temperature ++ DEGREE
         ++ py_str temperatureUnit ++
      NL ++ "            Wind: " ++ py_str windSpeed ++ " " ++ py_str windDirection ++
      NL ++ "            Forecast: " ++ py_str detailedForecast ++
      NL ++ "            "))))))).

(** [getForecast] from the comment `Format the periods' on. *)
Definition forecast_text (forecast_data : pyval) : result string :=
  rbind (subscript forecast_data "properties") (fun properties =>
  rbind (subscript properties "periods") (fun periods =>
  rbind (slice_to hashable_slices 5 periods) (fun shown =>
  rbind (iterate shown) (fun items =>
  rbind (map_result forecast_entry items) (fun forecasts =>
  Ok (join SEPARATOR forecasts)))))).

Definition getForecast (latitude longitude : float) : M string :=
  let points_url :=
    NWS_API_BASE ++ "/points/" ++ float_repr latitude ++ "," ++ float_repr longitude in
  points_data <- makeNwsRequest (PStr points_url) ;;
  if negb (truthy points_data)
  then ret "Unable to fetch forecast data for this location."
  else
    forecast_url <-
      lift (rbind (subscript points_data "properties") (fun properties =>
            subscript properties "forecast")) ;;
    forecast_data <- makeNwsRequest forecast_url ;;
    if negb (truthy forecast_data)
    then ret "Unable to fetch detailed forecast."
    else lift (forecast_text forecast_data).

(** ** Vocabulary of the statements *)

Definition alerts_url (state : string) : string :=
  NWS_API_BASE ++ "/alerts/active/area/" ++ state.

Definition points_url (latitude longitude : float) : string :=
  NWS_API_BASE ++ "/points/" ++ float_repr latitude ++ "," ++ float_repr longitude.

(** What a labelled line shows for a field of [properties]: the fixed
    default when the field is absent, a [str] as it is, any other value as
    Python prints it. *)
Definition field_text (default : string) (field : option pyval) : string :=
  match field with
  | None => default
  | Some (PStr s) => s
  | Some v => py_repr v
  end.

(** An alert feature: an object whose ["properties"] is an object. *)
Definition is_feature (feature : pyval) : Prop :=
  exists d props, feature = PDict d /\ lookup "properties" d = Some (PDict props).

Definition period_fields : list string :=
  ["name"; "temperature"; "temperatureUnit"; "windSpeed"; "windDirection";
   "detailedForecast"].

(** A forecast period: an object that has the six fields. *)
Definition is_period (period : pyval) : Prop :=
  exists d, period = PDict d /\
            Forall (fun key => lookup (A := pyval) key d <> None) period_fields.

(** [v[outer][inner]] when [v] and [v[outer]] are objects that have the
    keys. *)
Definition nested_field (v : pyval) (outer inner : string) : option pyval :=
  match v with
  | PDict d =>
      match lookup outer d with
      | Some (PDict p) => lookup inner p
      | _ => None
      end
  | _ => None
  end.

(** [data["features"]] when [data] is an object and the value is a list. *)
Definition features_list (data : pyval) : option (list pyval) :=
  match data with
  | PDict d =>
      match lookup "features" d with
      | Some (PList l) => Some l
      | _ => None
      end
  | _ => None
  end.

(** The line [makeNwsRequest] prints when it catches [e]. *)
Definition error_line (url : pyval) (e : pyexn) : string :=
  "Error making request to " ++ py_str url ++ ": " ++ exn_str e.

(** The world after one call of [client.get] for [u] that ended in the
    exception [e]. *)
Definition after_failure (w : world) (u : string) (e : pyexn) : world :=
  mkWorld (requests w ++ [u]) (stdout w ++ [error_line (PStr u) e]).

(** The world after one request for [u] that went through. *)
Definition after_success (w : world) (u : string) : world :=
  mkWorld (requests w ++ [u]) (stdout w).

(** The fields [formatAlert] reads from [properties]. *)
Definition alert_fields : list string :=
  ["event"; "areaDesc"; "severity"; "description"; "instruction"].

(** The adapter results on which [getAlerts] comes back with a string:
    a falsy value; a list or a string in which ["features"] does not occur;
    an object whose ["features"], when it has one, is falsy or a list of
    alert features. *)
Definition alerts_accepted (data : pyval) : Prop :=
  truthy data = false \/
  (exists l, data = PList l /\ existsb (is_str "features") l = false) \/
  (exists s, data = PStr s /\ str_contains "features" s = false) \/
  (exists d, data = PDict d /\
     forall features, lookup "features" d = Some features ->
       truthy features = false \/
       exists l, features = PList l /\ Forall is_feature l).

(** [str], [list] and [dict]: the values [in] can search. *)
Definition is_container (v : pyval) : bool :=
  match v with
  | PStr _ | PList _ | PDict _ => true
  | _ => false
  end.

(** What a replacement field [{d[key]}] inserts for an object [d] that has
    the key (nothing when it has not). *)
Definition field_str (d : list (string * pyval)) (key : string) : string :=
  match lookup key d with
  | Some v => py_str v
  | None => ""
  end.

(** The first of the six period fields that an object lacks. *)
Definition first_missing (d : list (string * pyval)) : option string :=
  find (fun key => match lookup key d with None => true | Some _ => false end)
       period_fields.

(** The keys [getForecast] subscripts. *)
Definition forecast_keys : list string :=
  "properties" :: "forecast" :: "periods" :: period_fields.

(** A text that opens with a line feed, as every formatted block does. *)
Definition opens_with_newline (text : string) : Prop :=
  exists rest, text = NL ++ rest.

(** ** The request adapter *)

Lemma makeNwsRequest_str (u : string) (w : world) :
  makeNwsRequest (PStr u) w =
  match transport (requests w) u with
  | TimedOut => (Ok PNone, after_failure w u TimeoutException)
  | Failed msg => (Ok PNone, after_failure w u (TransportError msg))
  | Refused msg => (Ok PNone, after_failure w u (InvalidURL msg))
  | Response status_code content =>
      if is_success status_code then
        match json_loads content with
        | Some v => (Ok v, after_success w u)
        | None => (Ok PNone, after_failure w u JSONDecodeError)
        end
      else (Ok PNone, after_failure w u (HTTPStatusError status_code))
  end.
Proof.
  unfold makeNwsRequest, try_except, bind, client_get, raise_for_status,
    response_json.
  destruct (transport (requests w) u) as [| msg | msg | status_code content];
    try reflexivity.
  cbn [fst snd].
  destruct (is_success status_code); [| reflexivity].
  unfold ret. destruct (json_loads content); reflexivity.
Qed.

Lemma makeNwsRequest_not_str (url : pyval) (w : world) :
  (forall u, url <> PStr u) ->
  makeNwsRequest url w =
  (Ok PNone, mkWorld (requests w) (stdout w ++ [error_line url TypeError])).
Proof.
  intros Hurl.
  destruct url; try reflexivity.
  exfalso. eapply Hurl. reflexivity.
Qed.

(** The adapter returns a value in every world, whatever it is asked. *)
Lemma makeNwsRequest_returns (url : pyval) (w : world) :
  exists data w', makeNwsRequest url w = (Ok data, w').
Proof.
  destruct url as [| b | n | x | u | l | d];
    try (rewrite makeNwsRequest_not_str by congruence; eauto).
  rewrite makeNwsRequest_str.
  destruct (transport (requests w) u) as [| msg | msg | status_code content]; eauto.
  destruct (is_success status_code); eauto.
  destruct (json_loads content); eauto.
Qed.

Lemma is_success_false (status_code : Z) :
  status_code < 200 \/ 299 < status_code -> is_success status_code = false.
Proof. unfold is_success. intros H. lia. Qed.

(** C1. Whenever the transport times out, raises a transport error, answers
    with a status outside 200..299, or answers with a body that is not
    JSON, [makeNwsRequest] returns [None] (it does not raise); it has made
    the one request and printed one line. *)
Theorem makeNwsRequest_failure_returns_None (u : string) (w : world) :
  transport (requests w) u = TimedOut \/
  (exists msg, transport (requests w) u = Failed msg) \/
  (exists status_code content,
      transport (requests w) u = Response status_code content /\
      ((status_code < 200 \/ 299 < status_code) \/ json_loads content = None)) ->
  exists e, makeNwsRequest (PStr u) w = (Ok PNone, after_failure w u e).
Proof.
  intros Hfail. rewrite makeNwsRequest_str.
  destruct Hfail as [-> | [[msg ->] | (status_code & content & -> & Hbad)]].
  - eauto.
  - eauto.
  - destruct Hbad as [Hstatus | Hbody].
    + rewrite (is_success_false _ Hstatus). eauto.
    + rewrite Hbody. destruct (is_success status_code); eauto.
Qed.

(** ** Formatting *)

Lemma dict_get_text (props : list (string * pyval)) (key default : string) :
  exists v, dict_get (PDict props) key (PStr default) = Ok v /\
            py_str v = field_text default (lookup key props).
Proof.
  unfold dict_get, field_text.
  destruct (lookup key props) as [v |].
  - exists v. split; [reflexivity | destruct v; reflexivity].
  - exists (PStr default). split; reflexivity.
Qed.

(** C8. On a feature whose [properties] is an object, [formatAlert] returns
    the five labelled lines; each line shows the field's text when the
    field is there and its fixed default when it is not. *)
Theorem formatAlert_defaults (d props : list (string * pyval)) :
  lookup "properties" d = Some (PDict props) ->
  formatAlert (PDict d) =
  Ok (NL ++ "    Event: " ++ field_text "Unknown" (lookup "event" props) ++
      NL ++ "    Area: " ++ field_text "Unknown" (lookup "areaDesc" props) ++
      NL ++ "    Severity: " ++ field_text "Unknown" (lookup "severity" props) ++
      NL ++ "    Description: " ++
        field_text "No description available" (lookup "description" props) ++
      NL ++ "    Instructions: " ++
        field_text "No specific instructions provided" (lookup "instruction" props) ++
      NL ++ "    ").
Proof.
  intros Hprops. unfold formatAlert, subscript. rewrite Hprops. cbn [rbind].
  destruct (dict_get_text props "event" "Unknown") as (v1 & -> & <-).
  destruct (dict_get_text props "areaDesc" "Unknown") as (v2 & -> & <-).
  destruct (dict_get_text props "severity" "Unknown") as (v3 & -> & <-).
  destruct (dict_get_text props "description" "No description available")
    as (v4 & -> & <-).
  destruct (dict_get_text props "instruction" "No specific instructions provided")
    as (v5 & -> & <-).
  reflexivity.
Qed.

Lemma formatAlert_feature (feature : pyval) :
  is_feature feature -> exists block, formatAlert feature = Ok block.
Proof.
  intros (d & props & -> & Hprops).
  unfold formatAlert, subscript. rewrite Hprops. cbn [rbind].
  destruct (dict_get_text props "event" "Unknown") as (v1 & -> & _).
  destruct (dict_get_text props "areaDesc" "Unknown") as (v2 & -> & _).
  destruct (dict_get_text props "severity" "Unknown") as (v3 & -> & _).
  destruct (dict_get_text props "description" "No description available")
    as (v4 & -> & _).
  destruct (dict_get_text props "instruction" "No specific instructions provided")
    as (v5 & -> & _).
  cbn [rbind]. eauto.
Qed.

Lemma map_result_all {A B} (f : A -> result B) (xs : list A) :
  Forall (fun x => exists y, f x = Ok y) xs ->
  exists ys, map_result f xs = Ok ys /\ Forall2 (fun x y => f x = Ok y) xs ys.
Proof.
  induction 1 as [| x rest [y Hy] _ (ys & Hys & Hall)].
  - exists []. split; [reflexivity | constructor].
  - exists (y :: ys). split.
    + cbn. rewrite Hy. cbn. rewrite Hys. reflexivity.
    + constructor; assumption.
Qed.

Lemma Forall_firstn {A} (P : A -> Prop) (n : nat) (xs : list A) :
  Forall P xs -> Forall P (firstn n xs).
Proof.
  intros Hall. rewrite <- (firstn_skipn n xs) in Hall.
  apply Forall_app in Hall. apply Hall.
Qed.

(** ** getAlerts *)

Lemma getAlerts_after (state : string) (w w' : world) (data : pyval) :
  makeNwsRequest (PStr (alerts_url state)) w = (Ok data, w') ->
  getAlerts state w = (alerts_text data, w').
Proof.
  intros Hreq. unfold getAlerts, bind, lift.
  change (NWS_API_BASE ++ "/alerts/active/area/" ++ state) with (alerts_url state).
  rewrite Hreq. reflexivity.
Qed.

Lemma alerts_text_no_features (d : list (string * pyval)) :
  lookup "features" d = None ->
  alerts_text (PDict d) = Ok "Unable to fetch alerts or no alerts found.".
Proof.
  intros Hlook. unfold alerts_text, py_in. rewrite Hlook.
  destruct d; reflexivity.
Qed.

Lemma alerts_text_features (d : list (string * pyval)) (features : pyval) :
  lookup "features" d = Some features ->
  alerts_text (PDict d) =
  if truthy features then
    rbind (iterate features) (fun items =>
    rbind (map_result formatAlert items) (fun alerts =>
    Ok (join SEPARATOR alerts)))
  else Ok "No active alerts for this state.".
Proof.
  intros Hlook. unfold alerts_text, py_in, subscript. rewrite Hlook.
  destruct d as [| kv d']; [discriminate |].
  cbn [truthy negb rbind]. destruct (truthy features); reflexivity.
Qed.

(** C7. When the adapter returns an object whose ["features"] is the empty
    list, [getAlerts] returns the second fallback string; when it is a
    non-empty list of alert features, [getAlerts] returns one block per
    feature, each the [formatAlert] of its feature, in the order of the
    features and joined by the separator. *)
Theorem getAlerts_features (state : string) (w w' : world)
    (d : list (string * pyval)) (l : list pyval) :
  makeNwsRequest (PStr (alerts_url state)) w = (Ok (PDict d), w') ->
  lookup "features" d = Some (PList l) ->
  Forall is_feature l ->
  (l = [] -> getAlerts state w = (Ok "No active alerts for this state.", w')) /\
  (l <> [] ->
   exists blocks,
     Forall2 (fun feature block => formatAlert feature = Ok block) l blocks /\
     getAlerts state w = (Ok (join SEPARATOR blocks), w')).
Proof.
  intros Hreq Hlook Hall. rewrite (getAlerts_after _ _ _ _ Hreq).
  rewrite (alerts_text_features d _ Hlook). split.
  - intros ->. reflexivity.
  - intros Hne.
    destruct (map_result_all formatAlert l) as (blocks & Hmap & Hblocks).
    { eapply Forall_impl; [| exact Hall]. apply formatAlert_feature. }
    exists blocks. split; [exact Hblocks |].
    destruct l as [| f l']; [congruence |].
    cbn [truthy iterate rbind]. rewrite Hmap. reflexivity.
Qed.

(** ** getForecast *)

Lemma makeNwsRequest_requests (u : string) (w w' : world) (r : result pyval) :
  makeNwsRequest (PStr u) w = (r, w') -> requests w' = (requests w ++ [u])%list.
Proof.
  rewrite makeNwsRequest_str.
  destruct (transport (requests w) u) as [| msg | msg | status_code content].
  - intros [= _ <-]. reflexivity.
  - intros [= _ <-]. reflexivity.
  - intros [= _ <-]. reflexivity.
  - destruct (is_success status_code); [destruct (json_loads content) |];
      intros [= _ <-]; reflexivity.
Qed.

Lemma nested_field_Some (v x : pyval) (outer inner : string) :
  nested_field v outer inner = Some x ->
  truthy v = true /\
  rbind (subscript v outer) (fun p => subscript p inner) = Ok x.
Proof.
  unfold nested_field, subscript.
  destruct v as [| | | | | | d]; try discriminate.
  destruct (lookup outer d) as [p |] eqn:Houter; [| discriminate].
  destruct p as [| | | | | | props]; try discriminate.
  intros Hinner. split.
  - destruct d; [discriminate | reflexivity].
  - cbn. rewrite Hinner. reflexivity.
Qed.

Lemma nested_field_None (v : pyval) (outer inner : string) :
  nested_field v outer inner = None ->
  exists e, rbind (subscript v outer) (fun p => subscript p inner) = Raise e.
Proof.
  unfold nested_field, subscript.
  destruct v as [| | | | | | d]; try (cbn; eauto; fail).
  destruct (lookup outer d) as [p |]; [| cbn; eauto].
  destruct p as [| | | | | | props]; try (cbn; eauto; fail).
  intros Hinner. cbn. rewrite Hinner. eauto.
Qed.

(** [getForecast] once the first request has returned. *)
Lemma getForecast_after (latitude longitude : float) (w w1 : world)
    (points_data : pyval) :
  makeNwsRequest (PStr (points_url latitude longitude)) w = (Ok points_data, w1) ->
  getForecast latitude longitude w =
  if truthy points_data then
    match rbind (subscript points_data "properties")
                (fun properties => subscript properties "forecast") with
    | Ok forecast_url =>
        match makeNwsRequest forecast_url w1 with
        | (Ok forecast_data, w2) =>
            if truthy forecast_data then (forecast_text forecast_data, w2)
            else (Ok "Unable to fetch detailed forecast.", w2)
        | (Raise e, w2) => (Raise e, w2)
        end
    | Raise e => (Raise e, w1)
    end
  else (Ok "Unable to fetch forecast data for this location.", w1).
Proof.
  intros Hreq. unfold getForecast, bind, lift, ret.
  change (NWS_API_BASE ++ "/points/" ++ float_repr latitude ++ "," ++
          float_repr longitude) with (points_url latitude longitude).
  rewrite Hreq.
  destruct (truthy points_data); cbn [negb]; [| reflexivity].
  destruct (rbind _ _) as [forecast_url | e]; [| reflexivity].
  destruct (makeNwsRequest forecast_url w1) as [[forecast_data | e] w2];
    [| reflexivity].
  destruct (truthy forecast_data); reflexivity.
Qed.

(** [getForecast] once both requests have returned. *)
Lemma getForecast_after_both (latitude longitude : float) (w w1 w2 : world)
    (points_data forecast_url forecast_data : pyval) :
  makeNwsRequest (PStr (points_url latitude longitude)) w = (Ok points_data, w1) ->
  nested_field points_data "properties" "forecast" = Some forecast_url ->
  makeNwsRequest forecast_url w1 = (Ok forecast_data, w2) ->
  getForecast latitude longitude w =
  if truthy forecast_data then (forecast_text forecast_data, w2)
  else (Ok "Unable to fetch detailed forecast.", w2).
Proof.
  intros Hreq Hurl Hreq2. rewrite (getForecast_after _ _ _ _ _ Hreq).
  destruct (nested_field_Some _ _ _ _ Hurl) as [-> ->].
  rewrite Hreq2. reflexivity.
Qed.

Lemma forecast_text_periods (forecast_data periods : pyval) :
  nested_field forecast_data "properties" "periods" = Some periods ->
  forecast_text forecast_data =
  rbind (slice_to hashable_slices 5 periods) (fun shown =>
  rbind (iterate shown) (fun items =>
  rbind (map_result forecast_entry items) (fun forecasts =>
  Ok (join SEPARATOR forecasts)))).
Proof.
  intros Hperiods. destruct (nested_field_Some _ _ _ _ Hperiods) as [_ Hsub].
  unfold forecast_text.
  destruct (subscript forecast_data "properties") as [properties | e];
    [| discriminate].
  cbn [rbind] in *. rewrite Hsub. reflexivity.
Qed.

Lemma forecast_entry_period (period : pyval) :
  is_period period -> exists block, forecast_entry period = Ok block.
Proof.
  intros (d & -> & Hfields). unfold period_fields in Hfields.
  repeat match goal with
         | H : Forall _ (_ :: _) |- _ => inversion H; subst; clear H
         end.
  unfold forecast_entry, subscript.
  repeat match goal with
         | H : lookup ?k d <> None |- _ =>
             destruct (lookup k d); [clear H | congruence]
         end.
  cbn [rbind]. eauto.
Qed.

(** C3. A points response that is truthy but has no
    [properties.forecast] makes [getForecast] raise at the unguarded
    subscript, and so does a forecast response that is truthy but has no
    [properties.periods]: no fallback string is returned. *)
Theorem getForecast_unguarded_access (latitude longitude : float) (w w1 : world)
    (points_data : pyval) :
  makeNwsRequest (PStr (points_url latitude longitude)) w = (Ok points_data, w1) ->
  truthy points_data = true ->
  (nested_field points_data "properties" "forecast" = None ->
   exists e, getForecast latitude longitude w = (Raise e, w1)) /\
  (forall forecast_url forecast_data w2,
      nested_field points_data "properties" "forecast" = Some forecast_url ->
      makeNwsRequest forecast_url w1 = (Ok forecast_data, w2) ->
      truthy forecast_data = true ->
      nested_field forecast_data "properties" "periods" = None ->
      exists e, getForecast latitude longitude w = (Raise e, w2)).
Proof.
  intros Hreq Htruthy. split.
  - intros Hnone. rewrite (getForecast_after _ _ _ _ _ Hreq), Htruthy.
    destruct (nested_field_None _ _ _ Hnone) as [e ->]. eauto.
  - intros forecast_url forecast_data w2 Hurl Hreq2 Htruthy2 Hnone.
    rewrite (getForecast_after_both _ _ _ _ _ _ _ _ Hreq Hurl Hreq2), Htruthy2.
    destruct (nested_field_None _ _ _ Hnone) as [e He].
    exists e. unfold forecast_text.
    destruct (subscript forecast_data "properties") as [properties | e'].
    + cbn [rbind] in *. rewrite He. reflexivity.
    + cbn [rbind] in *. congruence.
Qed.

(** C4. When the points request returns [None], [getForecast] returns the
    first fallback string, and the points request is the only request
    made; when the points response carries a forecast URL and the forecast
    request returns [None], [getForecast] returns the second fallback
    string. *)
Theorem getForecast_fallbacks (latitude longitude : float) (w w1 : world)
    (points_data : pyval) :
  makeNwsRequest (PStr (points_url latitude longitude)) w = (Ok points_data, w1) ->
  (points_data = PNone ->
   getForecast latitude longitude w =
     (Ok "Unable to fetch forecast data for this location.", w1) /\
   requests w1 = (requests w ++ [points_url latitude longitude])%list) /\
  (forall forecast_url w2,
      nested_field points_data "properties" "forecast" = Some forecast_url ->
      makeNwsRequest forecast_url w1 = (Ok PNone, w2) ->
      getForecast latitude longitude w =
        (Ok "Unable to fetch detailed forecast.", w2)).
Proof.
  intros Hreq. split.
  - intros ->. split.
    + rewrite (getForecast_after _ _ _ _ _ Hreq). reflexivity.
    + exact (makeNwsRequest_requests _ _ _ _ Hreq).
  - intros forecast_url w2 Hurl Hreq2.
    rewrite (getForecast_after_both _ _ _ _ _ _ _ _ Hreq Hurl Hreq2).
    reflexivity.
Qed.

Lemma forecast_entry_text (d : list (string * pyval)) :
  Forall (fun key => lookup key d <> None) period_fields ->
  forecast_entry (PDict d) =
  Ok (NL ++ "            " ++ field_str d "name" ++ ":" ++
      NL ++ "            Temperature: " ++ field_str d "temperature" ++ DEGREE
         ++ field_str d "temperatureUnit" ++
      NL ++ "            Wind: " ++ field_str d "windSpeed" ++ " "
         ++ field_str d "windDirection" ++
      NL ++ "            Forecast: " ++ field_str d "detailedForecast" ++
      NL ++ "            ").
Proof.
  intros Hfields. unfold period_fields in Hfields.
  repeat match goal with
         | H : Forall _ (_ :: _) |- _ => inversion H; subst; clear H
         end.
  unfold forecast_entry, subscript, field_str.
  repeat match goal with
         | H : lookup ?k d <> None |- _ =>
             destruct (lookup k d); [clear H | congruence]
         end.
  reflexivity.
Qed.

Lemma map_result_related {A B} (f : A -> result B) (Q : A -> B -> Prop)
    (xs : list A) :
  Forall (fun x => exists y, f x = Ok y /\ Q x y) xs ->
  exists ys, map_result f xs = Ok ys /\ Forall2 Q xs ys.
Proof.
  induction 1 as [| x rest (y & Hy & HQ) _ (ys & Hys & Hall)].
  - exists []. split; [reflexivity | constructor].
  - exists (y :: ys). split.
    + cbn. rewrite Hy. cbn. rewrite Hys. reflexivity.
    + constructor; assumption.
Qed.

(** C5. When both requests return and [properties.periods] of the forecast
    response is a list of [n] periods, [getForecast] returns [min n 5]
    blocks joined by the separator, one for each of the first periods in
    their order; the block of a period is the four labelled lines that show
    its name, its temperature with the degree sign and the unit, its wind
    speed and direction, and its detailed forecast. *)
Theorem getForecast_first_five (latitude longitude : float) (w w1 w2 : world)
    (points_data forecast_url forecast_data : pyval) (periods : list pyval) :
  makeNwsRequest (PStr (points_url latitude longitude)) w = (Ok points_data, w1) ->
  nested_field points_data "properties" "forecast" = Some forecast_url ->
  makeNwsRequest forecast_url w1 = (Ok forecast_data, w2) ->
  nested_field forecast_data "properties" "periods" = Some (PList periods) ->
  Forall is_period periods ->
  exists blocks,
    List.length blocks = Nat.min (List.length periods) 5 /\
    Forall2 (fun period block =>
               exists d,
                 period = PDict d /\
                 block =
                 NL ++ "            " ++ field_str d "name" ++ ":" ++
                 NL ++ "            Temperature: " ++ field_str d "temperature"
                    ++ DEGREE ++ field_str d "temperatureUnit" ++
                 NL ++ "            Wind: " ++ field_str d "windSpeed" ++ " "
                    ++ field_str d "windDirection" ++
                 NL ++ "            Forecast: " ++ field_str d "detailedForecast" ++
                 NL ++ "            ")
            (firstn 5 periods) blocks /\
    getForecast latitude longitude w = (Ok (join SEPARATOR blocks), w2).
Proof.
  intros Hreq Hurl Hreq2 Hperiods Hall.
  destruct (map_result_related forecast_entry
              (fun period block =>
                 exists d,
                   period = PDict d /\
                   block =
                   NL ++ "            " ++ field_str d "name" ++ ":" ++
                   NL ++ "            Temperature: " ++ field_str d "temperature"
                      ++ DEGREE ++ field_str d "temperatureUnit" ++
                   NL ++ "            Wind: " ++ field_str d "windSpeed" ++ " "
                      ++ field_str d "windDirection" ++
                   NL ++ "            Forecast: " ++ field_str d "detailedForecast" ++
                   NL ++ "            ")
              (firstn 5 periods))
    as (blocks & Hmap & Hblocks).
  { eapply Forall_impl; [| apply Forall_firstn; exact Hall].
    intros period (d & -> & Hfields).
    eexists. split; [exact (forecast_entry_text d Hfields) |].
    exists d. split; reflexivity. }
  exists blocks. split; [| split; [exact Hblocks |]].
  - rewrite <- (Forall2_length Hblocks). rewrite length_firstn.
    apply Nat.min_comm.
  - rewrite (getForecast_after_both _ _ _ _ _ _ _ _ Hreq Hurl Hreq2).
    destruct (nested_field_Some _ _ _ _ Hperiods) as [-> _].
    rewrite (forecast_text_periods _ _ Hperiods).
    cbn [slice_to iterate rbind]. rewrite Hmap. reflexivity.
Qed.

(** C9. When both requests return and [properties.periods] of the forecast
    response is the empty list, [getForecast] returns the empty string. *)
Theorem getForecast_no_periods (latitude longitude : float) (w w1 w2 : world)
    (points_data forecast_url forecast_data : pyval) :
  makeNwsRequest (PStr (points_url latitude longitude)) w = (Ok points_data, w1) ->
  nested_field points_data "properties" "forecast" = Some forecast_url ->
  makeNwsRequest forecast_url w1 = (Ok forecast_data, w2) ->
  nested_field forecast_data "properties" "periods" = Some (PList []) ->
  getForecast latitude longitude w = (Ok "", w2).
Proof.
  intros Hreq Hurl Hreq2 Hperiods.
  rewrite (getForecast_after_both _ _ _ _ _ _ _ _ Hreq Hurl Hreq2).
  destruct (nested_field_Some _ _ _ _ Hperiods) as [-> _].
  rewrite (forecast_text_periods _ _ Hperiods). reflexivity.
Qed.

(** C10. When the points request is answered with a 2xx status and a body
    that parses to the empty object, [getForecast] returns the fallback
    string of a failed fetch, and the points request is the only request
    made. *)
Theorem getForecast_empty_object (latitude longitude : float) (w : world)
    (status_code : Z) (content : string) :
  transport (requests w) (points_url latitude longitude)
    = Response status_code content ->
  200 <= status_code <= 299 ->
  json_loads content = Some (PDict []) ->
  getForecast latitude longitude w =
    (Ok "Unable to fetch forecast data for this location.",
     mkWorld (requests w ++ [points_url latitude longitude]) (stdout w)).
Proof.
  intros Hanswer Hstatus Hbody.
  assert (Hreq : makeNwsRequest (PStr (points_url latitude longitude)) w =
                 (Ok (PDict []), after_success w (points_url latitude longitude))).
  { rewrite makeNwsRequest_str, Hanswer.
    replace (is_success status_code) with true by (unfold is_success; lia).
    rewrite Hbody. reflexivity. }
  rewrite (getForecast_after _ _ _ _ _ Hreq). reflexivity.
Qed.

(** ** The adapter, beyond the failure cases *)

Lemma is_success_true (status_code : Z) :
  is_success status_code = true -> 200 <= status_code <= 299.
Proof. unfold is_success. intros H. lia. Qed.

(** X1. Every exception raised inside the [try] block, by [client.get], by
    [raise_for_status] or by [response.json()], is caught: whatever the URL
    value, the world and the outcome of the request, [makeNwsRequest]
    returns to its caller.  (The text of the model is text that the standard
    output accepts, so the [print] of the handler goes through.) *)
Theorem makeNwsRequest_never_raises (url : pyval) (w w' : world) (e : pyexn) :
  makeNwsRequest url w <> (Raise e, w').
Proof.
  destruct (makeNwsRequest_returns url w) as (data & w1 & ->). discriminate.
Qed.

(** X2. A value other than [None] that [makeNwsRequest] returns is the
    parsed body of a response with a status in 200..299; the request was
    made once and nothing was printed. *)
Theorem makeNwsRequest_data_from_response (url data : pyval) (w w' : world) :
  makeNwsRequest url w = (Ok data, w') ->
  data <> PNone ->
  exists u status_code content,
    url = PStr u /\
    transport (requests w) u = Response status_code content /\
    200 <= status_code <= 299 /\
    json_loads content = Some data /\
    w' = after_success w u.
Proof.
  intros Hreq Hdata.
  destruct url as [| b | n | x | u | l | d];
    try (rewrite makeNwsRequest_not_str in Hreq by congruence; congruence).
  rewrite makeNwsRequest_str in Hreq.
  destruct (transport (requests w) u) as [| msg | msg | status_code content] eqn:Hanswer;
    try congruence.
  destruct (is_success status_code) eqn:Hstatus; [| congruence].
  destruct (json_loads content) as [v |] eqn:Hbody; [| congruence].
  injection Hreq as <- <-.
  exists u, status_code, content.
  repeat split; auto; apply is_success_true in Hstatus; lia.
Qed.

(** X3. A call of [makeNwsRequest] on a string URL calls [client.get]
    exactly once, with that URL: it does not retry and asks for no other
    URL.  It calls [print] at most once: not at all, or once, when it
    returns [None], with the text that names the URL and the exception. *)
Theorem makeNwsRequest_one_request (u : string) (w w' : world) (r : result pyval) :
  makeNwsRequest (PStr u) w = (r, w') ->
  requests w' = (requests w ++ [u])%list /\
  (stdout w' = stdout w \/
   r = Ok PNone /\ exists e, stdout w' = (stdout w ++ [error_line (PStr u) e])%list).
Proof.
  rewrite makeNwsRequest_str.
  destruct (transport (requests w) u) as [| msg | msg | status_code content].
  - intros [= <- <-].
    split; [reflexivity | right; split; [reflexivity | eexists; reflexivity]].
  - intros [= <- <-].
    split; [reflexivity | right; split; [reflexivity | eexists; reflexivity]].
  - intros [= <- <-].
    split; [reflexivity | right; split; [reflexivity | eexists; reflexivity]].
  - destruct (is_success status_code); [destruct (json_loads content) |];
      intros [= <- <-]; split; try reflexivity.
    + left. reflexivity.
    + right. split; [reflexivity | eexists; reflexivity].
    + right. split; [reflexivity | eexists; reflexivity].
Qed.

(** ** formatAlert, on every value *)

Lemma rbind_Ok {A B} (r : result A) (k : A -> result B) (b : B) :
  rbind r k = Ok b -> exists a, r = Ok a /\ k a = Ok b.
Proof. destruct r as [a | e]; [eauto | discriminate]. Qed.

Lemma rbind_Raise {A B} (r : result A) (k : A -> result B) (e : pyexn) :
  rbind r k = Raise e -> r = Raise e \/ exists a, r = Ok a /\ k a = Raise e.
Proof. destruct r as [a | e']; [eauto | intros [= ->]; auto]. Qed.

Lemma map_result_Ok {A B} (f : A -> result B) (xs : list A) (ys : list B) :
  map_result f xs = Ok ys -> Forall2 (fun x y => f x = Ok y) xs ys.
Proof.
  revert ys. induction xs as [| x rest IH]; intros ys Hmap.
  - injection Hmap as <-. constructor.
  - cbn in Hmap. apply rbind_Ok in Hmap as (y & Hy & Hmap).
    apply rbind_Ok in Hmap as (ys' & Hrest & [= <-]).
    constructor; auto.
Qed.

Lemma map_result_Raise {A B} (f : A -> result B) (xs : list A) (e : pyexn) :
  map_result (B := B) f xs = Raise e -> exists x, In x xs /\ f x = Raise e.
Proof.
  induction xs as [| x rest IH]; [discriminate |].
  cbn. intros Hmap. apply rbind_Raise in Hmap as [Hx | (y & _ & Hmap)].
  - exists x. auto.
  - apply rbind_Raise in Hmap as [Hrest | (ys & _ & Hmap)]; [| discriminate].
    destruct (IH Hrest) as (x' & Hin & Hx'). exists x'. auto.
Qed.

Lemma formatAlert_Ok_feature (feature : pyval) (block : string) :
  formatAlert feature = Ok block -> is_feature feature.
Proof.
  unfold formatAlert. intros Hfmt.
  apply rbind_Ok in Hfmt as (props & Hsub & Hfmt).
  apply rbind_Ok in Hfmt as (event & Hget & _).
  unfold subscript in Hsub. destruct feature as [| | | | | | d]; try discriminate.
  destruct (lookup "properties" d) as [p |] eqn:Hlook; [| discriminate].
  injection Hsub as ->.
  destruct props as [| | | | | | fields]; try discriminate.
  exists d, fields. auto.
Qed.

Lemma formatAlert_opens (feature : pyval) (block : string) :
  formatAlert feature = Ok block -> opens_with_newline block.
Proof.
  unfold formatAlert. intros Hfmt.
  repeat match type of Hfmt with
         | rbind _ _ = Ok _ =>
             let v := fresh "v" in
             apply rbind_Ok in Hfmt as (v & _ & Hfmt)
         end.
  injection Hfmt as <-. eexists. reflexivity.
Qed.

(** X4. [formatAlert] returns a block exactly on the objects whose
    ["properties"] is an object; on anything else it raises. *)
Theorem formatAlert_succeeds_iff (feature : pyval) :
  (exists block, formatAlert feature = Ok block) <-> is_feature feature.
Proof.
  split.
  - intros [block Hfmt]. exact (formatAlert_Ok_feature _ _ Hfmt).
  - apply formatAlert_feature.
Qed.

(** X5. What [formatAlert] raises: [TypeError] on a value that is not an
    object, [KeyError] for ["properties"] on an object without that key,
    [AttributeError] when ["properties"] is there and is not an object
    (among them [null]). *)
Theorem formatAlert_errors :
  (forall feature, (forall d, feature <> PDict d) ->
                   formatAlert feature = Raise TypeError) /\
  (forall d, lookup "properties" d = None ->
             formatAlert (PDict d) = Raise (KeyError "properties")) /\
  (forall d props, lookup "properties" d = Some props ->
                   (forall fields, props <> PDict fields) ->
                   formatAlert (PDict d) = Raise AttributeError).
Proof.
  repeat split.
  - intros feature Hnot. destruct feature; try reflexivity.
    exfalso. eapply Hnot. reflexivity.
  - intros d Hlook. unfold formatAlert, subscript. rewrite Hlook. reflexivity.
  - intros d props Hlook Hnot. unfold formatAlert, subscript. rewrite Hlook.
    destruct props; try reflexivity.
    exfalso. eapply Hnot. reflexivity.
Qed.

(** X6. The block of a feature depends on the five fields only: two
    features whose [properties] agree on them get the same block, whatever
    else the objects hold. *)
Theorem formatAlert_reads_five_fields (d d' props props' : list (string * pyval)) :
  lookup "properties" d = Some (PDict props) ->
  lookup "properties" d' = Some (PDict props') ->
  (forall key, In key alert_fields -> lookup key props = lookup key props') ->
  formatAlert (PDict d) = formatAlert (PDict d').
Proof.
  intros Hd Hd' Hsame. unfold formatAlert, subscript, dict_get.
  rewrite Hd, Hd'. cbn [rbind].
  rewrite !Hsame by (unfold alert_fields; cbn; tauto).
  reflexivity.
Qed.

(** ** getAlerts, on every adapter result *)

Lemma makeNwsRequest_stdout (u : string) (w w' : world) (r : result pyval) :
  makeNwsRequest (PStr u) w = (r, w') ->
  stdout w' = stdout w \/ exists line, stdout w' = (stdout w ++ [line])%list.
Proof.
  rewrite makeNwsRequest_str.
  destruct (transport (requests w) u) as [| msg | msg | status_code content].
  - intros [= _ <-]. right. eexists. reflexivity.
  - intros [= _ <-]. right. eexists. reflexivity.
  - intros [= _ <-]. right. eexists. reflexivity.
  - destruct (is_success status_code); [destruct (json_loads content) |];
      intros [= _ <-]; auto; right; eexists; reflexivity.
Qed.

Lemma getAlerts_run (state : string) (w : world) :
  exists data w',
    makeNwsRequest (PStr (alerts_url state)) w = (Ok data, w') /\
    getAlerts state w = (alerts_text data, w').
Proof.
  destruct (makeNwsRequest_returns (PStr (alerts_url state)) w) as (data & w' & Hreq).
  exists data, w'. split; [exact Hreq | exact (getAlerts_after _ _ _ _ Hreq)].
Qed.

Lemma chars_aux_cons (cur s : string) :
  exists first rest, chars_aux cur s = first :: rest.
Proof.
  revert cur. induction s as [| c s' IH]; intros cur; cbn.
  - eauto.
  - destruct (is_continuation c); eauto.
Qed.

Lemma formatAlert_Raise (feature : pyval) (e : pyexn) :
  formatAlert feature = Raise e ->
  e = TypeError \/ e = KeyError "properties" \/ e = AttributeError.
Proof.
  destruct feature as [| | | | | | d]; try (intros [= <-]; auto).
  destruct (lookup "properties" d) as [props |] eqn:Hlook.
  - destruct props as [| | | | | | fields];
      try (unfold formatAlert, subscript; rewrite Hlook; intros [= <-]; auto).
    destruct (formatAlert_feature (PDict d)) as [block ->]; [| discriminate].
    exists d, fields. auto.
  - unfold formatAlert, subscript. rewrite Hlook. intros [= <-]. auto.
Qed.

Lemma join_opens (block : string) (blocks : list string) :
  opens_with_newline block -> opens_with_newline (join SEPARATOR (block :: blocks)).
Proof.
  intros [rest ->]. unfold opens_with_newline, join.
  destruct blocks as [| b bs]; cbn; eauto.
Qed.

Lemma not_opens_with_newline (c : ascii) (text : string) :
  c <> ascii_of_nat 10 -> ~ opens_with_newline (String c text).
Proof. intros Hc [rest [= Heq _]]. exact (Hc Heq). Qed.

(** What the comprehension and the join of [getAlerts] come to, on a truthy
    ["features"]. *)
Lemma alerts_blocks (features : pyval) :
  truthy features = true ->
  (exists l blocks,
      features = PList l /\ l <> [] /\
      Forall2 (fun feature block => formatAlert feature = Ok block) l blocks /\
      rbind (iterate features) (fun items =>
      rbind (map_result formatAlert items) (fun alerts =>
      Ok (join SEPARATOR alerts))) = Ok (join SEPARATOR blocks)) \/
  (exists e,
      rbind (iterate features) (fun items =>
      rbind (map_result formatAlert items) (fun alerts =>
      Ok (join SEPARATOR alerts))) = Raise e /\
      (e = TypeError \/ e = KeyError "properties" \/ e = AttributeError)).
Proof.
  intros Htruthy.
  destruct features as [| b | n | x | s | l | d];
    try discriminate; try (right; exists TypeError; split; [reflexivity | auto]).
  - destruct s as [| c s']; [discriminate |].
    right. exists TypeError. split; [| auto].
    cbn [iterate chars rbind].
    destruct (chars_aux_cons (String c EmptyString) s') as (first & rest & ->).
    reflexivity.
  - destruct l as [| f l']; [discriminate |].
    cbn [iterate rbind].
    destruct (map_result formatAlert (f :: l')) as [blocks | e] eqn:Hmap.
    + left. exists (f :: l'), blocks.
      repeat split; [discriminate | exact (map_result_Ok _ _ _ Hmap)].
    + right. exists e. split; [reflexivity |].
      destruct (map_result_Raise _ _ _ Hmap) as (x & _ & Hx).
      exact (formatAlert_Raise _ _ Hx).
  - destruct d as [| [k v] d']; [discriminate |].
    right. exists TypeError. split; [reflexivity | auto].
Qed.

(** The four ways [getAlerts] ends after the request. *)
Lemma alerts_text_cases (data : pyval) :
  (alerts_text data = Ok "Unable to fetch alerts or no alerts found." /\
   (truthy data = false \/ py_in "features" data = Ok false)) \/
  (alerts_text data = Ok "No active alerts for this state." /\
   exists d features,
     data = PDict d /\ lookup "features" d = Some features /\
     truthy features = false) \/
  (exists d l blocks,
     data = PDict d /\ lookup "features" d = Some (PList l) /\ l <> [] /\
     Forall2 (fun feature block => formatAlert feature = Ok block) l blocks /\
     alerts_text data = Ok (join SEPARATOR blocks)) \/
  (exists e,
     alerts_text data = Raise e /\
     (e = TypeError \/ e = KeyError "properties" \/ e = AttributeError)).
Proof.
  destruct data as [| b | n | x | s | l | d].
  - left. split; [reflexivity | auto].
  - destruct b.
    + right; right; right. exists TypeError. split; [reflexivity | auto].
    + left. split; [reflexivity | auto].
  - unfold alerts_text. cbn [truthy py_in]. destruct (n =? 0).
    + left. split; [reflexivity | auto].
    + right; right; right. exists TypeError. split; [reflexivity | auto].
  - unfold alerts_text. cbn [truthy py_in]. destruct (PrimFloat.eqb x 0).
    + left. split; [reflexivity | auto].
    + right; right; right. exists TypeError. split; [reflexivity | auto].
  - destruct s as [| c s'].
    + left. split; [reflexivity | auto].
    + unfold alerts_text.
      change (truthy (PStr (String c s'))) with true. cbn [negb py_in rbind].
      destruct (str_contains "features" (String c s')).
      * right; right; right. exists TypeError. split; [reflexivity | auto].
      * left. split; [reflexivity | auto].
  - destruct l as [| f l'].
    + left. split; [reflexivity | auto].
    + unfold alerts_text. cbn [truthy negb py_in rbind].
      destruct (existsb (is_str "features") (f :: l')).
      * right; right; right. exists TypeError. split; [reflexivity | auto].
      * left. split; [reflexivity | auto].
  - destruct (lookup "features" d) as [features |] eqn:Hlook.
    + rewrite (alerts_text_features d features Hlook).
      destruct (truthy features) eqn:Htruthy.
      * destruct (alerts_blocks features Htruthy)
          as [(l & blocks & -> & Hne & Hblocks & ->) | (e & -> & He)].
        -- right; right; left. exists d, l, blocks. auto.
        -- right; right; right. exists e. auto.
      * right; left. split; [reflexivity |]. exists d, features. auto.
    + left. split; [exact (alerts_text_no_features d Hlook) |].
      right. cbn [py_in]. rewrite Hlook. reflexivity.
Qed.

Lemma alerts_accepted_Ok (data : pyval) :
  alerts_accepted data -> exists text, alerts_text data = Ok text.
Proof.
  intros [Hfalsy | [(l & -> & Hl) | [(s & -> & Hs) | (d & -> & Hfeatures)]]].
  - unfold alerts_text. rewrite Hfalsy. eexists. reflexivity.
  - unfold alerts_text. cbn [py_in]. rewrite Hl.
    destruct (truthy (PList l)); eexists; reflexivity.
  - unfold alerts_text. cbn [py_in]. rewrite Hs.
    destruct (truthy (PStr s)); eexists; reflexivity.
  - destruct (lookup "features" d) as [features |] eqn:Hlook.
    + rewrite (alerts_text_features d features Hlook).
      destruct (Hfeatures features eq_refl) as [-> | (l & -> & Hall)];
        [eexists; reflexivity |].
      destruct l as [| f l']; [eexists; reflexivity |].
      destruct (map_result_all formatAlert (f :: l')) as (blocks & Hmap & _).
      { eapply Forall_impl; [| exact Hall]. apply formatAlert_feature. }
      cbn [truthy iterate rbind]. rewrite Hmap. eexists. reflexivity.
    + rewrite (alerts_text_no_features d Hlook). eexists. reflexivity.
Qed.

Lemma alerts_text_Ok_accepted (data : pyval) (text : string) :
  alerts_text data = Ok text -> alerts_accepted data.
Proof.
  intros Hok.
  destruct (alerts_text_cases data)
    as [[_ Hwhy] | [[_ (d & features & -> & Hlook & Hfalsy)]
       | [(d & l & blocks & -> & Hlook & _ & Hblocks & _) | (e & He & _)]]].
  - destruct Hwhy as [Hfalsy | Hin]; [left; exact Hfalsy |].
    destruct data as [| | | | s | l | d]; try discriminate; cbn [py_in] in Hin.
    + right; right; left. exists s. split; [reflexivity | congruence].
    + right; left. exists l. split; [reflexivity | congruence].
    + right; right; right. exists d. split; [reflexivity |].
      intros features Hlook. rewrite Hlook in Hin. discriminate.
  - right; right; right. exists d. split; [reflexivity |].
    intros features' Hlook'. left. congruence.
  - right; right; right. exists d. split; [reflexivity |].
    intros features' Hlook'. right. exists l. split; [congruence |].
    clear Hlook Hlook'. induction Hblocks as [| f b l' bs Hf _ IH]; constructor.
    + exact (formatAlert_Ok_feature _ _ Hf).
    + exact IH.
  - congruence.
Qed.

(** C6, as the code has it. When the adapter returns a falsy value ([None]
    among them), an object without a ["features"] key, or a list or string
    in which ["features"] does not occur, [getAlerts] returns the first
    fallback string; when it returns a truthy value that is not a container
    (a number other than zero, or [true]), the membership test raises
    [TypeError] and no string is returned. *)
Theorem getAlerts_unable_or_TypeError (state : string) (w w' : world) (data : pyval) :
  makeNwsRequest (PStr (alerts_url state)) w = (Ok data, w') ->
  (truthy data = false \/
   (exists d, data = PDict d /\ lookup "features" d = None) \/
   (exists l, data = PList l /\ existsb (is_str "features") l = false) \/
   (exists s, data = PStr s /\ str_contains "features" s = false) ->
   getAlerts state w = (Ok "Unable to fetch alerts or no alerts found.", w')) /\
  (truthy data = true -> is_container data = false ->
   getAlerts state w = (Raise TypeError, w')).
Proof.
  intros Hreq. rewrite (getAlerts_after _ _ _ _ Hreq). split.
  - intros [Hfalsy | [(d & -> & Hlook) | [(l & -> & Hl) | (s & -> & Hs)]]].
    + unfold alerts_text. rewrite Hfalsy. reflexivity.
    + rewrite (alerts_text_no_features d Hlook). reflexivity.
    + unfold alerts_text. cbn [py_in]. rewrite Hl.
      destruct (truthy (PList l)); reflexivity.
    + unfold alerts_text. cbn [py_in]. rewrite Hs.
      destruct (truthy (PStr s)); reflexivity.
  - intros Htruthy Hscalar. unfold alerts_text. rewrite Htruthy.
    destruct data; try discriminate; reflexivity.
Qed.

(** C2, as the code has it. No exception leaves [getAlerts] exactly on the
    adapter results that are falsy, or lists or strings in which
    ["features"] does not occur, or objects whose ["features"], if there is
    one, is falsy or a list of alert features: on these it returns one of
    the two fallback strings or the joined blocks of the features; on every
    other result a [TypeError], the [KeyError] for ["properties"] or an
    [AttributeError] leaves it. *)
Theorem getAlerts_no_exception_exactly (state : string) (w w' : world)
    (data : pyval) :
  makeNwsRequest (PStr (alerts_url state)) w = (Ok data, w') ->
  (alerts_accepted data ->
   exists text,
     getAlerts state w = (Ok text, w') /\
     (text = "Unable to fetch alerts or no alerts found." \/
      text = "No active alerts for this state." \/
      exists l blocks,
        features_list data = Some l /\
        Forall2 (fun feature block => formatAlert feature = Ok block) l blocks /\
        text = join SEPARATOR blocks)) /\
  (~ alerts_accepted data ->
   exists e,
     getAlerts state w = (Raise e, w') /\
     (e = TypeError \/ e = KeyError "properties" \/ e = AttributeError)).
Proof.
  intros Hreq. rewrite (getAlerts_after _ _ _ _ Hreq).
  destruct (alerts_text_cases data)
    as [[Hunable _] | [[Hno _]
       | [(d & l & blocks & -> & Hlook & _ & Hblocks & Hjoin) | (e & He & Hkind)]]].
  - split.
    + intros _. eexists. rewrite Hunable. split; [reflexivity | auto].
    + intros Hnot. exfalso. exact (Hnot (alerts_text_Ok_accepted _ _ Hunable)).
  - split.
    + intros _. eexists. rewrite Hno. split; [reflexivity | auto].
    + intros Hnot. exfalso. exact (Hnot (alerts_text_Ok_accepted _ _ Hno)).
  - split.
    + intros _. eexists. rewrite Hjoin. split; [reflexivity |].
      right; right. exists l, blocks. unfold features_list. rewrite Hlook. auto.
    + intros Hnot. exfalso. exact (Hnot (alerts_text_Ok_accepted _ _ Hjoin)).
  - split.
    + intros Hacc. destruct (alerts_accepted_Ok _ Hacc) as [text Hok]. congruence.
    + intros _. exists e. rewrite He. auto.
Qed.

(** X7. Whatever comes of it, a call of [getAlerts] calls [client.get]
    exactly once, with the alerts URL of the state as given, and [print] at
    most once. *)
Theorem getAlerts_one_request (state : string) (w w' : world) (r : result string) :
  getAlerts state w = (r, w') ->
  requests w' = (requests w ++ [alerts_url state])%list /\
  (stdout w' = stdout w \/ exists line, stdout w' = (stdout w ++ [line])%list).
Proof.
  destruct (getAlerts_run state w) as (data & w1 & Hreq & ->).
  intros [= _ <-]. split.
  - exact (makeNwsRequest_requests _ _ _ _ Hreq).
  - exact (makeNwsRequest_stdout _ _ _ _ Hreq).
Qed.

(** X8. [getAlerts] comes back with a string exactly when the adapter's
    result is falsy, a list or string in which ["features"] does not occur,
    or an object whose ["features"], if there is one, is falsy or a list of
    alert features; on every other result an exception leaves it. *)
Theorem getAlerts_succeeds_iff (state : string) (w w' : world) (data : pyval) :
  makeNwsRequest (PStr (alerts_url state)) w = (Ok data, w') ->
  (exists text, getAlerts state w = (Ok text, w')) <-> alerts_accepted data.
Proof.
  intros Hreq. rewrite (getAlerts_after _ _ _ _ Hreq). split.
  - intros [text [= Hok]]. exact (alerts_text_Ok_accepted _ _ Hok).
  - intros Hacc. destruct (alerts_accepted_Ok _ Hacc) as [text ->]. eauto.
Qed.

Ltac not_newline := let H := fresh in intro H; vm_compute in H; discriminate.

Lemma joined_alerts_open (l : list pyval) (blocks : list string) :
  l <> [] ->
  Forall2 (fun feature block => formatAlert feature = Ok block) l blocks ->
  opens_with_newline (join SEPARATOR blocks).
Proof.
  intros Hne Hblocks. destruct Hblocks as [| f b l' bs Hf _]; [congruence |].
  apply join_opens. exact (formatAlert_opens _ _ Hf).
Qed.

(** X9. [getAlerts] answers "Unable to fetch alerts or no alerts found."
    exactly when the adapter's result is falsy or is a container in which
    ["features"] does not occur: no formatted result reads like it. *)
Theorem getAlerts_unable_iff (state : string) (w w' : world) (data : pyval) :
  makeNwsRequest (PStr (alerts_url state)) w = (Ok data, w') ->
  getAlerts state w = (Ok "Unable to fetch alerts or no alerts found.", w') <->
  truthy data = false \/ py_in "features" data = Ok false.
Proof.
  intros Hreq. rewrite (getAlerts_after _ _ _ _ Hreq). split.
  - intros [= Hok].
    destruct (alerts_text_cases data)
      as [[_ Hwhy] | [[Hno _]
         | [(d & l & blocks & _ & _ & Hne & Hblocks & Hjoin) | (e & He & _)]]].
    + exact Hwhy.
    + rewrite Hno in Hok. discriminate.
    + rewrite Hjoin in Hok. injection Hok as Hok.
      pose proof (joined_alerts_open l blocks Hne Hblocks) as Hopens.
      rewrite Hok in Hopens. exfalso. revert Hopens.
      apply not_opens_with_newline. not_newline.
    + congruence.
  - intros [Hfalsy | Hin]; unfold alerts_text.
    + rewrite Hfalsy. reflexivity.
    + rewrite Hin. destruct (truthy data); reflexivity.
Qed.

(** X10. [getAlerts] answers "No active alerts for this state." exactly
    when the adapter's result is an object whose ["features"] is there and
    falsy: the empty list, but also [null], [0], the empty string or the
    empty object. *)
Theorem getAlerts_no_alerts_iff (state : string) (w w' : world) (data : pyval) :
  makeNwsRequest (PStr (alerts_url state)) w = (Ok data, w') ->
  getAlerts state w = (Ok "No active alerts for this state.", w') <->
  exists d features,
    data = PDict d /\ lookup "features" d = Some features /\ truthy features = false.
Proof.
  intros Hreq. rewrite (getAlerts_after _ _ _ _ Hreq). split.
  - intros [= Hok].
    destruct (alerts_text_cases data)
      as [[Hunable _] | [[_ Hwhy]
         | [(d & l & blocks & _ & _ & Hne & Hblocks & Hjoin) | (e & He & _)]]].
    + rewrite Hunable in Hok. discriminate.
    + exact Hwhy.
    + rewrite Hjoin in Hok. injection Hok as Hok.
      pose proof (joined_alerts_open l blocks Hne Hblocks) as Hopens.
      rewrite Hok in Hopens. exfalso. revert Hopens.
      apply not_opens_with_newline. not_newline.
    + congruence.
  - intros (d & features & -> & Hlook & Hfalsy).
    rewrite (alerts_text_features d features Hlook), Hfalsy. reflexivity.
Qed.

(** X11. A string that [getAlerts] returns is never empty. *)
Theorem getAlerts_never_empty (state text : string) (w w' : world) :
  getAlerts state w = (Ok text, w') -> text <> "".
Proof.
  destruct (getAlerts_run state w) as (data & w1 & _ & ->). intros [= Hok _].
  destruct (alerts_text_cases data)
    as [[Hunable _] | [[Hno _]
       | [(d & l & blocks & _ & _ & Hne & Hblocks & Hjoin) | (e & He & _)]]].
  - rewrite Hunable in Hok. injection Hok as <-. discriminate.
  - rewrite Hno in Hok. injection Hok as <-. discriminate.
  - rewrite Hjoin in Hok. injection Hok as <-.
    destruct (joined_alerts_open l blocks Hne Hblocks) as [rest ->]. discriminate.
  - congruence.
Qed.

(** X12. An exception that leaves [getAlerts] is a [TypeError], the
    [KeyError] for ["properties"], or an [AttributeError]; no exception of
    the request ever does, and no [KeyError] for ["features"]. *)
Theorem getAlerts_escaping_exceptions (state : string) (w w' : world) (e : pyexn) :
  getAlerts state w = (Raise e, w') ->
  e = TypeError \/ e = KeyError "properties" \/ e = AttributeError.
Proof.
  destruct (getAlerts_run state w) as (data & w1 & _ & ->). intros [= Hraise _].
  destruct (alerts_text_cases data)
    as [[Hunable _] | [[Hno _]
       | [(d & l & blocks & _ & _ & _ & _ & Hjoin) | (e' & He & Hkind)]]];
    congruence.
Qed.

(** ** The forecast text, on every response *)

Lemma forecast_entry_cases (d : list (string * pyval)) :
  match first_missing d with
  | Some key => forecast_entry (PDict d) = Raise (KeyError key)
  | None => exists block, forecast_entry (PDict d) = Ok block
  end.
Proof.
  unfold first_missing, period_fields, forecast_entry, subscript. cbn [find].
  destruct (lookup "name" d); [| reflexivity].
  destruct (lookup "temperature" d); [| reflexivity].
  destruct (lookup "temperatureUnit" d); [| reflexivity].
  destruct (lookup "windSpeed" d); [| reflexivity].
  destruct (lookup "windDirection" d); [| reflexivity].
  destruct (lookup "detailedForecast" d); [| reflexivity].
  eexists. reflexivity.
Qed.

Lemma first_missing_In (d : list (string * pyval)) (key : string) :
  first_missing d = Some key -> In key period_fields /\ lookup key d = None.
Proof.
  unfold first_missing. intros Hfind. apply find_some in Hfind as [Hin Hnone].
  split; [exact Hin |]. destruct (lookup key d); [discriminate | reflexivity].
Qed.

Lemma forecast_entry_Raise (period : pyval) (e : pyexn) :
  forecast_entry period = Raise e ->
  e = TypeError \/ exists key, e = KeyError key /\ In key period_fields.
Proof.
  destruct period as [| | | | | | d]; try (intros [= <-]; auto).
  pose proof (forecast_entry_cases d) as Hcases.
  destruct (first_missing d) as [key |] eqn:Hmissing.
  - rewrite Hcases. intros [= <-]. right. exists key.
    split; [reflexivity | exact (proj1 (first_missing_In _ _ Hmissing))].
  - destruct Hcases as [block ->]. discriminate.
Qed.

Lemma forecast_entry_Ok_period (period : pyval) (block : string) :
  forecast_entry period = Ok block -> is_period period.
Proof.
  destruct period as [| | | | | | d]; try discriminate.
  intros Hok. exists d. split; [reflexivity |].
  pose proof (forecast_entry_cases d) as Hcases.
  destruct (first_missing d) as [key |] eqn:Hmissing; [congruence |].
  apply Forall_forall. intros key Hin Hnone.
  unfold first_missing in Hmissing.
  eapply find_none in Hmissing; [| exact Hin].
  cbn beta in Hmissing. rewrite Hnone in Hmissing. discriminate.
Qed.

Lemma forecast_entry_opens (period : pyval) (block : string) :
  forecast_entry period = Ok block -> opens_with_newline block.
Proof.
  unfold forecast_entry. intros Hfmt.
  repeat match type of Hfmt with
         | rbind _ _ = Ok _ =>
             let v := fresh "v" in
             apply rbind_Ok in Hfmt as (v & _ & Hfmt)
         end.
  injection Hfmt as <-. eexists. reflexivity.
Qed.

Lemma joined_forecasts_shape (periods : list pyval) (blocks : list string) :
  Forall2 (fun period block => forecast_entry period = Ok block) periods blocks ->
  (periods = [] /\ join SEPARATOR blocks = "") \/
  (periods <> [] /\ opens_with_newline (join SEPARATOR blocks)).
Proof.
  intros [| p b ps bs Hp _].
  - left. split; reflexivity.
  - right. split; [discriminate |].
    apply join_opens. exact (forecast_entry_opens _ _ Hp).
Qed.

Lemma nested_field_None_kind (v : pyval) (outer inner : string) :
  nested_field v outer inner = None ->
  exists e,
    rbind (subscript v outer) (fun p => subscript p inner) = Raise e /\
    (e = TypeError \/ e = KeyError outer \/ e = KeyError inner).
Proof.
  unfold nested_field, subscript.
  destruct v as [| | | | | | d]; try (cbn; eauto; fail).
  destruct (lookup outer d) as [p |]; [| cbn; eauto 6].
  destruct p as [| | | | | | props]; try (cbn; eauto; fail).
  intros Hinner. cbn. rewrite Hinner. eauto 6.
Qed.

Lemma forecast_text_nested (forecast_data : pyval) :
  forecast_text forecast_data =
  rbind (rbind (subscript forecast_data "properties")
               (fun properties => subscript properties "periods"))
        (fun periods =>
         rbind (slice_to hashable_slices 5 periods) (fun shown =>
         rbind (iterate shown) (fun items =>
         rbind (map_result forecast_entry items) (fun forecasts =>
         Ok (join SEPARATOR forecasts))))).
Proof.
  unfold forecast_text.
  destruct (subscript forecast_data "properties"); reflexivity.
Qed.

Lemma slice_of_text (c : ascii) (s : string) :
  exists first rest,
    iterate (PStr (String.concat "" (firstn 5 (chars (String c s))))) =
    Ok (PStr first :: rest).
Proof.
  cbn [chars].
  assert (Hhead : forall cur t, exists more others,
             chars_aux (String c cur) t = String c more :: others).
  { intros cur t. revert cur. induction t as [| a t' IH]; intros cur; cbn.
    - eauto.
    - destruct (is_continuation a); [apply (IH (cur ++ String a EmptyString)) | eauto]. }
  destruct (Hhead EmptyString s) as (more & others & ->).
  assert (Hconcat : exists tail,
             String.concat "" (firstn 5 (String c more :: others)) = String c tail).
  { change (firstn 5 (String c more :: others))
      with (String c more :: firstn 4 others).
    destruct (firstn 4 others); cbn; eexists; reflexivity. }
  destruct Hconcat as [tail ->]. cbn [iterate chars].
  destruct (chars_aux_cons (String c EmptyString) tail) as (first & rest & ->).
  cbn [map]. eauto.
Qed.

(** The three ways the formatting part of [getForecast] ends. *)
Lemma forecast_text_cases (forecast_data : pyval) :
  (exists periods blocks,
      nested_field forecast_data "properties" "periods" = Some (PList periods) /\
      Forall2 (fun period block => forecast_entry period = Ok block)
              (firstn 5 periods) blocks /\
      forecast_text forecast_data = Ok (join SEPARATOR blocks)) \/
  (nested_field forecast_data "properties" "periods" = Some (PStr "") /\
   forecast_text forecast_data = Ok "") \/
  (exists e,
      forecast_text forecast_data = Raise e /\
      (e = TypeError \/
       (exists key, e = KeyError key /\
                    In key ("properties" :: "periods" :: period_fields)) \/
       (hashable_slices = true /\ e = KeyErrorSlice))).
Proof.
  destruct (nested_field forecast_data "properties" "periods") as [periods |] eqn:Hnested.
  - rewrite (forecast_text_periods _ _ Hnested).
    destruct periods as [| b | n | x | s | ps | d];
      try (right; right; exists TypeError; split; [reflexivity | auto]; fail).
    + destruct s as [| c s'].
      * right; left. split; reflexivity.
      * right; right. exists TypeError. split; [| auto].
        cbn [slice_to rbind].
        destruct (slice_of_text c s') as (first & rest & ->). reflexivity.
    + cbn [slice_to iterate rbind].
      destruct (map_result forecast_entry (firstn 5 ps)) as [blocks | e] eqn:Hmap.
      * left. exists ps, blocks.
        repeat split; [exact (map_result_Ok _ _ _ Hmap)].
      * right; right. exists e. split; [reflexivity |].
        destruct (map_result_Raise _ _ _ Hmap) as (p & _ & Hp).
        destruct (forecast_entry_Raise _ _ Hp) as [-> | (key & -> & Hin)]; [auto |].
        right; left. exists key. split; [reflexivity | right; right; exact Hin].
    + right; right. cbn [slice_to rbind].
      destruct hashable_slices; eexists; (split; [reflexivity | auto]).
  - right; right. rewrite forecast_text_nested.
    destruct (nested_field_None_kind _ _ _ Hnested) as (e & -> & He).
    exists e. split; [reflexivity |].
    destruct He as [-> | [-> | ->]]; [auto | right; left | right; left]; eexists;
      (split; [reflexivity | cbn; auto]).
Qed.

Lemma forecast_text_Ok_shape (forecast_data : pyval) (text : string) :
  forecast_text forecast_data = Ok text -> text = "" \/ opens_with_newline text.
Proof.
  intros Hok.
  destruct (forecast_text_cases forecast_data)
    as [(periods & blocks & _ & Hblocks & Hjoin) | [[_ Hempty] | (e & He & _)]].
  - rewrite Hjoin in Hok. injection Hok as <-.
    destruct (joined_forecasts_shape _ _ Hblocks) as [[_ ->] | [_ Hopens]]; auto.
  - left. congruence.
  - congruence.
Qed.

Lemma Forall2_left {A B} (P : A -> Prop) (R : A -> B -> Prop)
    (xs : list A) (ys : list B) :
  (forall x y, R x y -> P x) -> Forall2 R xs ys -> Forall P xs.
Proof. intros HRP. induction 1; constructor; eauto. Qed.

(** X13. [forecast_entry], the text of one period, raises on an object
    exactly when one of the six fields is missing, and then it is the
    [KeyError] for the first missing field in the order name, temperature,
    temperatureUnit, windSpeed, windDirection, detailedForecast. *)
Theorem forecast_entry_missing_key (d : list (string * pyval)) (e : pyexn) :
  forecast_entry (PDict d) = Raise e <->
  exists key, first_missing d = Some key /\ e = KeyError key.
Proof.
  pose proof (forecast_entry_cases d) as Hcases.
  destruct (first_missing d) as [key |].
  - rewrite Hcases. split.
    + intros [= <-]. eauto.
    + intros (key' & [= <-] & ->). reflexivity.
  - destruct Hcases as [block ->]. split.
    + discriminate.
    + intros (key & Hkey & _). discriminate.
Qed.

(** ** getForecast, on every pair of responses *)

(** X14. A call of [getForecast] makes the points request first and at most
    one request more, and that one goes to the string found at
    [properties.forecast] of the points response. *)
Theorem getForecast_requests (latitude longitude : float) (w w' : world)
    (r : result string) :
  getForecast latitude longitude w = (r, w') ->
  exists points_data w1,
    makeNwsRequest (PStr (points_url latitude longitude)) w = (Ok points_data, w1) /\
    requests w1 = (requests w ++ [points_url latitude longitude])%list /\
    (requests w' = requests w1 \/
     exists u,
       nested_field points_data "properties" "forecast" = Some (PStr u) /\
       requests w' = (requests w1 ++ [u])%list).
Proof.
  intros Hrun.
  destruct (makeNwsRequest_returns (PStr (points_url latitude longitude)) w)
    as (points_data & w1 & Hreq).
  exists points_data, w1. split; [exact Hreq |].
  split; [exact (makeNwsRequest_requests _ _ _ _ Hreq) |].
  rewrite (getForecast_after _ _ _ _ _ Hreq) in Hrun.
  destruct (truthy points_data); [| injection Hrun as _ <-; auto].
  destruct (nested_field points_data "properties" "forecast") as [url |] eqn:Hurl.
  - destruct (nested_field_Some _ _ _ _ Hurl) as [_ Hsub]. rewrite Hsub in Hrun.
    destruct url as [| b | n | x | u | l | d];
      try (rewrite makeNwsRequest_not_str in Hrun by congruence;
           injection Hrun as _ <-; auto).
    destruct (makeNwsRequest (PStr u) w1) as [r2 w2] eqn:Hreq2.
    right. exists u. split; [reflexivity |].
    pose proof (makeNwsRequest_requests _ _ _ _ Hreq2) as Hreqs.
    destruct r2 as [forecast_data | e2]; [destruct (truthy forecast_data) |];
      injection Hrun as _ <-; exact Hreqs.
  - destruct (nested_field_None _ _ _ Hurl) as [e He]. rewrite He in Hrun.
    injection Hrun as _ <-. auto.
Qed.

(** X15. [getForecast] answers "Unable to fetch forecast data for this
    location." exactly when the points response is falsy: [None], but also
    an empty object or list, [0], [false] or the empty string. *)
Theorem getForecast_first_fallback_iff (latitude longitude : float) (w w1 : world)
    (points_data : pyval) :
  makeNwsRequest (PStr (points_url latitude longitude)) w = (Ok points_data, w1) ->
  (exists w', getForecast latitude longitude w =
              (Ok "Unable to fetch forecast data for this location.", w')) <->
  truthy points_data = false.
Proof.
  intros Hreq. rewrite (getForecast_after _ _ _ _ _ Hreq). split.
  - intros [w' Hrun]. destruct (truthy points_data); [| reflexivity]. exfalso.
    destruct (rbind _ _) as [forecast_url | e]; [| discriminate].
    destruct (makeNwsRequest forecast_url w1) as [[forecast_data | e] w2];
      [| discriminate].
    destruct (truthy forecast_data); [| discriminate].
    injection Hrun as Htext _.
    apply forecast_text_Ok_shape in Htext as [Hempty | Hopens]; [discriminate |].
    revert Hopens. apply not_opens_with_newline. not_newline.
  - intros ->. eauto.
Qed.

(** X16. Once the points response has given a forecast URL, [getForecast]
    answers "Unable to fetch detailed forecast." exactly when the forecast
    response is falsy. *)
Theorem getForecast_second_fallback_iff (latitude longitude : float)
    (w w1 w2 : world) (points_data forecast_url forecast_data : pyval) :
  makeNwsRequest (PStr (points_url latitude longitude)) w = (Ok points_data, w1) ->
  nested_field points_data "properties" "forecast" = Some forecast_url ->
  makeNwsRequest forecast_url w1 = (Ok forecast_data, w2) ->
  getForecast latitude longitude w = (Ok "Unable to fetch detailed forecast.", w2) <->
  truthy forecast_data = false.
Proof.
  intros Hreq Hurl Hreq2.
  rewrite (getForecast_after_both _ _ _ _ _ _ _ _ Hreq Hurl Hreq2). split.
  - intros Hrun. destruct (truthy forecast_data); [| reflexivity]. exfalso.
    injection Hrun as Htext.
    apply forecast_text_Ok_shape in Htext as [Hempty | Hopens]; [discriminate |].
    revert Hopens. apply not_opens_with_newline. not_newline.
  - intros ->. reflexivity.
Qed.

(** X17. When [properties.forecast] of the points response is not a string,
    the second call of the adapter fails before any request: [getForecast]
    answers "Unable to fetch detailed forecast.", the points request stays
    the only one, and one line is printed. *)
Theorem getForecast_url_not_a_string (latitude longitude : float) (w w1 : world)
    (points_data forecast_url : pyval) :
  makeNwsRequest (PStr (points_url latitude longitude)) w = (Ok points_data, w1) ->
  nested_field points_data "properties" "forecast" = Some forecast_url ->
  (forall u, forecast_url <> PStr u) ->
  getForecast latitude longitude w =
  (Ok "Unable to fetch detailed forecast.",
   mkWorld (requests w1) (stdout w1 ++ [error_line forecast_url TypeError])).
Proof.
  intros Hreq Hurl Hnot.
  rewrite (getForecast_after_both _ _ _ _ _ _ _ _ Hreq Hurl
             (makeNwsRequest_not_str _ _ Hnot)).
  reflexivity.
Qed.

(** X18. With both responses in and a list at [properties.periods],
    [getForecast] comes back with a text exactly when the first five
    elements of the list are periods; what follows them is never looked
    at. *)
Theorem getForecast_succeeds_iff_first_five (latitude longitude : float)
    (w w1 w2 : world) (points_data forecast_url forecast_data : pyval)
    (periods : list pyval) :
  makeNwsRequest (PStr (points_url latitude longitude)) w = (Ok points_data, w1) ->
  nested_field points_data "properties" "forecast" = Some forecast_url ->
  makeNwsRequest forecast_url w1 = (Ok forecast_data, w2) ->
  nested_field forecast_data "properties" "periods" = Some (PList periods) ->
  (exists text, getForecast latitude longitude w = (Ok text, w2)) <->
  Forall is_period (firstn 5 periods).
Proof.
  intros Hreq Hurl Hreq2 Hperiods.
  rewrite (getForecast_after_both _ _ _ _ _ _ _ _ Hreq Hurl Hreq2).
  destruct (nested_field_Some _ _ _ _ Hperiods) as [-> _].
  rewrite (forecast_text_periods _ _ Hperiods). cbn [slice_to iterate rbind].
  split.
  - intros [text [= Hok]]. apply rbind_Ok in Hok as (blocks & Hmap & _).
    apply map_result_Ok in Hmap.
    eapply Forall2_left; [| exact Hmap].
    intros p b Hp. exact (forecast_entry_Ok_period _ _ Hp).
  - intros Hall.
    destruct (map_result_all forecast_entry (firstn 5 periods)) as (blocks & -> & _).
    { eapply Forall_impl; [apply forecast_entry_period | exact Hall]. }
    eexists. reflexivity.
Qed.

(** X19. [getForecast] returns the empty string only when
    [properties.periods] of the forecast response is the empty list or the
    empty string. *)
Theorem getForecast_empty_only_without_periods (latitude longitude : float)
    (w w1 w2 : world) (points_data forecast_url forecast_data : pyval) :
  makeNwsRequest (PStr (points_url latitude longitude)) w = (Ok points_data, w1) ->
  nested_field points_data "properties" "forecast" = Some forecast_url ->
  makeNwsRequest forecast_url w1 = (Ok forecast_data, w2) ->
  getForecast latitude longitude w = (Ok "", w2) ->
  nested_field forecast_data "properties" "periods" = Some (PList []) \/
  nested_field forecast_data "properties" "periods" = Some (PStr "").
Proof.
  intros Hreq Hurl Hreq2.
  rewrite (getForecast_after_both _ _ _ _ _ _ _ _ Hreq Hurl Hreq2).
  destruct (truthy forecast_data); [| discriminate]. intros [= Htext].
  destruct (forecast_text_cases forecast_data)
    as [(periods & blocks & Hperiods & Hblocks & Hjoin) | [[Hperiods _] | (e & He & _)]].
  - left. rewrite Hjoin in Htext. injection Htext as Htext.
    destruct (joined_forecasts_shape _ _ Hblocks) as [[Hnil _] | [_ [rest Hopens]]].
    + destruct periods; [exact Hperiods | discriminate].
    + rewrite Htext in Hopens. discriminate.
  - right. exact Hperiods.
  - congruence.
Qed.

(** X20. An exception that leaves [getForecast] is a [TypeError], the
    [KeyError] for one of the keys the handler subscripts, or, on an
    interpreter with hashable slices, the [KeyError] for the slice [[:5]]
    taken of an object; no exception of either request ever does. *)
Theorem getForecast_escaping_exceptions (latitude longitude : float) (w w' : world)
    (e : pyexn) :
  getForecast latitude longitude w = (Raise e, w') ->
  e = TypeError \/
  (exists key, e = KeyError key /\ In key forecast_keys) \/
  (hashable_slices = true /\ e = KeyErrorSlice).
Proof.
  destruct (makeNwsRequest_returns (PStr (points_url latitude longitude)) w)
    as (points_data & w1 & Hreq).
  rewrite (getForecast_after _ _ _ _ _ Hreq).
  destruct (truthy points_data); [| discriminate].
  destruct (nested_field points_data "properties" "forecast") as [url |] eqn:Hurl.
  - destruct (nested_field_Some _ _ _ _ Hurl) as [_ ->].
    destruct (makeNwsRequest_returns url w1) as (forecast_data & w2 & ->).
    destruct (truthy forecast_data); [| discriminate]. intros [= Hraise _].
    destruct (forecast_text_cases forecast_data)
      as [(periods & blocks & _ & _ & Hjoin) | [[_ Hempty] | (e' & He & Hkind)]];
      try congruence.
    assert (e' = e) as -> by congruence.
    destruct Hkind as [-> | [(key & -> & Hin) | Hslice]]; [auto | | auto].
    right; left. exists key. split; [reflexivity |].
    destruct Hin as [<- | [<- | Hin]]; cbn; auto.
  - destruct (nested_field_None_kind _ _ _ Hurl) as (e' & -> & He).
    intros [= <- _].
    destruct He as [-> | [-> | ->]]; [auto | right; left | right; left]; eexists;
      (split; [reflexivity | cbn; auto]).
Qed.


(** X22. On an answer with a status in 200..299 whose body is JSON,
    [makeNwsRequest] returns the parsed value as it is, having made the one
    request and printed nothing. *)
Theorem makeNwsRequest_success (u : string) (w : world) (status_code : Z)
    (content : string) (data : pyval) :
  transport (requests w) u = Response status_code content ->
  200 <= status_code <= 299 ->
  json_loads content = Some data ->
  makeNwsRequest (PStr u) w = (Ok data, after_success w u).
Proof.
  intros Hanswer Hstatus Hbody. rewrite makeNwsRequest_str, Hanswer.
  replace (is_success status_code) with true by (unfold is_success; lia).
  rewrite Hbody. reflexivity.
Qed.

End Weather.

(** ** The statements on the sample network *)

Local Abbreviation request table :=
  (makeNwsRequest Sample.float_repr Sample.str_repr Sample.exn_str Sample.json_loads
     (Sample.transport table)).
Local Abbreviation alerts table :=
  (getAlerts Sample.float_repr Sample.str_repr Sample.exn_str Sample.json_loads
     (Sample.transport table)).
Local Abbreviation forecast table :=
  (getForecast Sample.float_repr Sample.str_repr Sample.exn_str Sample.json_loads
     (Sample.transport table) Sample.hashable_slices).

Ltac run := vm_compute; reflexivity.

Example chars_of_text :
  chars ("61" ++ DEGREE ++ "F") = ["6"; "1"; DEGREE; "F"].
Proof. reflexivity. Qed.

Example int_str_negative : int_str (-12) = "-12".
Proof. reflexivity. Qed.

Example py_in_examples :
  py_in "features" (PStr "no features here") = Ok true /\
  py_in "features" (PList [PStr "type"; PStr "features"]) = Ok true /\
  py_in "features" Sample.no_features = Ok false /\
  py_in "features" (PBool true) = Raise TypeError.
Proof. repeat split; reflexivity. Qed.

Example py_str_of_values :
  py_str Sample.float_repr Sample.str_repr
    (PList [PInt 1; PStr "a"; PNone; PDict [("k", PBool true)]]) =
  "[1, 'a', None, {'k': True}]".
Proof. reflexivity. Qed.

(** A time-out: one request, one printed line, [None]. *)
Example makeNwsRequest_timeout :
  request [(Sample.alerts_CA, TimedOut)] (PStr Sample.alerts_CA) Sample.w0 =
  (Ok PNone,
   mkWorld [Sample.alerts_CA]
     ["Error making request to https://api.weather.gov/alerts/active/area/CA: "]).
Proof. run. Qed.

(** A URL that is not a [str]: no request, one printed line, [None]. *)
Example makeNwsRequest_bad_url :
  request [] (PInt 5) Sample.w0 =
  (Ok PNone, mkWorld [] ["Error making request to 5: Invalid type for url."]).
Proof. run. Qed.

Ltac sample_features :=
  repeat (apply Forall_cons; [do 2 eexists; split; reflexivity |]); apply Forall_nil.

Ltac sample_periods :=
  repeat (apply Forall_cons;
          [eexists; split;
           [reflexivity
           | repeat (apply Forall_cons; [discriminate |]); apply Forall_nil] |]);
  apply Forall_nil.

(** A 404 answer: the adapter returns [None]. *)
Lemma makeNwsRequest_failure_witness :
  exists e,
    request [(Sample.alerts_CA, Response 404 "Not Found")] (PStr Sample.alerts_CA)
      Sample.w0 =
    (Ok PNone,
     after_failure Sample.float_repr Sample.str_repr Sample.exn_str Sample.w0
       Sample.alerts_CA e).
Proof.
  apply makeNwsRequest_failure_returns_None.
  right; right. exists 404, "Not Found". split; [reflexivity | left; right; lia].
Defined.

(** A feature without severity, description and instruction. *)
Lemma formatAlert_defaults_witness :
  formatAlert Sample.float_repr Sample.str_repr Sample.quiet_alert =
  Ok (NL ++ "    Event: Flood Watch" ++
      NL ++ "    Area: Larimer County" ++
      NL ++ "    Severity: Unknown" ++
      NL ++ "    Description: No description available" ++
      NL ++ "    Instructions: No specific instructions provided" ++
      NL ++ "    ").
Proof.
  exact (formatAlert_defaults Sample.float_repr Sample.str_repr
           [("properties",
             PDict [("event", PStr "Flood Watch"); ("areaDesc", PStr "Larimer County")])]
           [("event", PStr "Flood Watch"); ("areaDesc", PStr "Larimer County")]
           eq_refl).
Defined.

(** No feature, and two features. *)
Lemma getAlerts_features_witness :
  alerts [(Sample.alerts_CA, Sample.ok Sample.no_alerts)] "CA" Sample.w0 =
    (Ok "No active alerts for this state.", mkWorld [Sample.alerts_CA] []) /\
  exists blocks,
    Forall2 (fun feature block =>
               formatAlert Sample.float_repr Sample.str_repr feature = Ok block)
            [Sample.alert "Winter Storm Warning" "Severe";
             Sample.alert "Wind Advisory" "Moderate"] blocks /\
    alerts [(Sample.alerts_CA, Sample.ok Sample.two_alerts)] "CA" Sample.w0 =
      (Ok (join SEPARATOR blocks), mkWorld [Sample.alerts_CA] []).
Proof.
  split.
  - refine (proj1 (getAlerts_features _ _ _ _ _ "CA" Sample.w0 _ _ [] _ _ _) eq_refl).
    + run.
    + reflexivity.
    + apply Forall_nil.
  - refine (proj2 (getAlerts_features _ _ _ _ _ "CA" Sample.w0 _ _ _ _ _ _) _).
    + run.
    + reflexivity.
    + sample_features.
    + discriminate.
Defined.

(** The two features, evaluated: two blocks around one separator. *)
Example getAlerts_two_alerts :
  alerts [(Sample.alerts_CA, Sample.ok Sample.two_alerts)] "CA" Sample.w0 =
  (Ok ((NL ++ "    Event: Winter Storm Warning" ++
        NL ++ "    Area: Boulder County" ++
        NL ++ "    Severity: Severe" ++
        NL ++ "    Description: Heavy snow expected." ++
        NL ++ "    Instructions: No specific instructions provided" ++
        NL ++ "    ") ++
       NL ++ "---" ++ NL ++
       (NL ++ "    Event: Wind Advisory" ++
        NL ++ "    Area: Boulder County" ++
        NL ++ "    Severity: Moderate" ++
        NL ++ "    Description: Heavy snow expected." ++
        NL ++ "    Instructions: No specific instructions provided" ++
        NL ++ "    ")),
   mkWorld [Sample.alerts_CA] []).
Proof. run. Qed.

(** C2, as stated, fails: the answer [5] makes [getAlerts] raise at the
    membership test, and a feature without ["properties"] makes it raise in
    [formatAlert]. *)
Lemma getAlerts_exception_escapes :
  alerts [(Sample.alerts_CA, Sample.ok (PInt 5))] "CA" Sample.w0 =
    (Raise TypeError, mkWorld [Sample.alerts_CA] []) /\
  alerts [(Sample.alerts_CA, Sample.ok Sample.bare_feature)] "CA" Sample.w0 =
    (Raise (KeyError "properties"), mkWorld [Sample.alerts_CA] []).
Proof. split; run. Qed.

(** Two features: the joined blocks; the answer [5]: [TypeError]. *)
Lemma getAlerts_no_exception_exactly_witness :
  (exists text,
      alerts [(Sample.alerts_CA, Sample.ok Sample.two_alerts)] "CA" Sample.w0 =
        (Ok text, mkWorld [Sample.alerts_CA] []) /\
      (text = "Unable to fetch alerts or no alerts found." \/
       text = "No active alerts for this state." \/
       exists l blocks,
         features_list Sample.two_alerts = Some l /\
         Forall2 (fun feature block =>
                    formatAlert Sample.float_repr Sample.str_repr feature = Ok block)
                 l blocks /\
         text = join SEPARATOR blocks)) /\
  (exists e,
      alerts [(Sample.alerts_CA, Sample.ok (PInt 5))] "CA" Sample.w0 =
        (Raise e, mkWorld [Sample.alerts_CA] []) /\
      (e = TypeError \/ e = KeyError "properties" \/ e = AttributeError)).
Proof.
  split.
  - refine (proj1 (getAlerts_no_exception_exactly _ _ _ _ _ "CA" Sample.w0 _
                     Sample.two_alerts _) _).
    + run.
    + right; right; right. eexists. split; [reflexivity |].
      intros features [= <-]. right. eexists. split; [reflexivity |].
      sample_features.
  - refine (proj2 (getAlerts_no_exception_exactly _ _ _ _ _ "CA" Sample.w0 _
                     (PInt 5) _) _).
    + run.
    + intros [Hfalsy | [(l & Hl & _) | [(s & Hs & _) | (d & Hd & _)]]];
        discriminate.
Defined.

(** C6, as stated, fails: the answer [5] has no ["features"] entry, and
    [getAlerts] raises [TypeError] where the claim has the fallback string. *)
Lemma getAlerts_number_without_features_raises :
  ~ (exists d features, PInt 5 = PDict d /\ lookup "features" d = Some features) /\
  alerts [(Sample.alerts_CA, Sample.ok (PInt 5))] "CA" Sample.w0 =
    (Raise TypeError, mkWorld [Sample.alerts_CA] []).
Proof.
  split.
  - intros (d & features & Hd & _). discriminate.
  - run.
Qed.

(** An object without ["features"]: the fallback; the answer [5]:
    [TypeError]. *)
Lemma getAlerts_unable_or_TypeError_witness :
  alerts [(Sample.alerts_CA, Sample.ok Sample.no_features)] "CA" Sample.w0 =
    (Ok "Unable to fetch alerts or no alerts found.", mkWorld [Sample.alerts_CA] []) /\
  alerts [(Sample.alerts_CA, Sample.ok (PInt 5))] "CA" Sample.w0 =
    (Raise TypeError, mkWorld [Sample.alerts_CA] []).
Proof.
  split.
  - refine (proj1 (getAlerts_unable_or_TypeError _ _ _ _ _ "CA" Sample.w0 _
                     Sample.no_features _) _).
    + run.
    + right; left. eexists. split; reflexivity.
  - refine (proj2 (getAlerts_unable_or_TypeError _ _ _ _ _ "CA" Sample.w0 _
                     (PInt 5) _) _ _).
    + run.
    + reflexivity.
    + reflexivity.
Defined.


(** The points answer lacks [properties.forecast]: [KeyError]. *)
Example getForecast_raises_KeyError_forecast :
  forecast [(Sample.points_here, Sample.ok Sample.point_without_forecast)]
    40.5%float (-105.5)%float Sample.w0 =
  (Raise (KeyError "forecast"), mkWorld [Sample.points_here] []).
Proof. run. Qed.

(** The forecast answer lacks [properties.periods]: [KeyError]. *)
Example getForecast_raises_KeyError_periods :
  forecast [(Sample.points_here, Sample.ok Sample.point);
            (Sample.forecast_url, Sample.ok Sample.forecast_without_periods)]
    40.5%float (-105.5)%float Sample.w0 =
  (Raise (KeyError "periods"), mkWorld [Sample.points_here; Sample.forecast_url] []).
Proof. run. Qed.

Lemma getForecast_unguarded_access_witness :
  (exists e,
      forecast [(Sample.points_here, Sample.ok Sample.point_without_forecast)]
        40.5%float (-105.5)%float Sample.w0 =
      (Raise e, mkWorld [Sample.points_here] [])) /\
  (exists e,
      forecast [(Sample.points_here, Sample.ok Sample.point);
                (Sample.forecast_url, Sample.ok Sample.forecast_without_periods)]
        40.5%float (-105.5)%float Sample.w0 =
      (Raise e, mkWorld [Sample.points_here; Sample.forecast_url] [])).
Proof.
  split.
  - refine (proj1 (getForecast_unguarded_access _ _ _ _ _ _ _ _ Sample.w0 _
                     Sample.point_without_forecast _ _) _).
    + run.
    + reflexivity.
    + reflexivity.
  - refine (proj2 (getForecast_unguarded_access _ _ _ _ _ _ _ _ Sample.w0
                     (mkWorld [Sample.points_here] []) Sample.point _ _)
                  (PStr Sample.forecast_url) Sample.forecast_without_periods _ _ _ _ _).
    + run.
    + reflexivity.
    + reflexivity.
    + run.
    + reflexivity.
    + reflexivity.
Defined.

(** No answer to the points request; then an answer to it and none to the
    forecast request. *)
Lemma getForecast_fallbacks_witness :
  (forecast [] 40.5%float (-105.5)%float Sample.w0 =
     (Ok "Unable to fetch forecast data for this location.",
      mkWorld [Sample.points_here]
        ["Error making request to https://api.weather.gov/points/40.5,-105.5: All connection attempts failed"]) /\
   requests
     (mkWorld [Sample.points_here]
        ["Error making request to https://api.weather.gov/points/40.5,-105.5: All connection attempts failed"]) =
   (requests Sample.w0 ++ [points_url Sample.float_repr 40.5%float (-105.5)%float])%list) /\
  forecast [(Sample.points_here, Sample.ok Sample.point)]
    40.5%float (-105.5)%float Sample.w0 =
  (Ok "Unable to fetch detailed forecast.",
   mkWorld [Sample.points_here; Sample.forecast_url]
     ["Error making request to https://api.weather.gov/gridpoints/BOU/63,62/forecast: All connection attempts failed"]).
Proof.
  split.
  - refine (proj1 (getForecast_fallbacks _ _ _ _ _ _ _ _ Sample.w0 _ PNone _) eq_refl).
    run.
  - refine (proj2 (getForecast_fallbacks _ _ _ _ _ _ _ _ Sample.w0
                     (mkWorld [Sample.points_here] []) Sample.point _)
                  (PStr Sample.forecast_url) _ _ _).
    + run.
    + reflexivity.
    + run.
Defined.

(** Seven periods: five blocks, each the four labelled lines of its
    period. *)
Lemma getForecast_first_five_witness :
  exists blocks,
    List.length blocks = Nat.min (List.length Sample.week) 5 /\
    Forall2 (fun period block =>
               exists d,
                 period = PDict d /\
                 block =
                 NL ++ "            "
                    ++ field_str Sample.float_repr Sample.str_repr d "name" ++ ":" ++
                 NL ++ "            Temperature: "
                    ++ field_str Sample.float_repr Sample.str_repr d "temperature"
                    ++ DEGREE
                    ++ field_str Sample.float_repr Sample.str_repr d "temperatureUnit" ++
                 NL ++ "            Wind: "
                    ++ field_str Sample.float_repr Sample.str_repr d "windSpeed" ++ " "
                    ++ field_str Sample.float_repr Sample.str_repr d "windDirection" ++
                 NL ++ "            Forecast: "
                    ++ field_str Sample.float_repr Sample.str_repr d "detailedForecast" ++
                 NL ++ "            ")
            (firstn 5 Sample.week) blocks /\
    forecast [(Sample.points_here, Sample.ok Sample.point);
              (Sample.forecast_url, Sample.ok (Sample.forecast_of Sample.week))]
      40.5%float (-105.5)%float Sample.w0 =
    (Ok (join SEPARATOR blocks), mkWorld [Sample.points_here; Sample.forecast_url] []).
Proof.
  apply (getForecast_first_five _ _ _ _ _ _ _ _ Sample.w0
           (mkWorld [Sample.points_here] []) _ Sample.point
           (PStr Sample.forecast_url) (Sample.forecast_of Sample.week)).
  - run.
  - reflexivity.
  - run.
  - reflexivity.
  - sample_periods.
Defined.

(** The same run, evaluated: the first five periods, in order. *)
Example getForecast_week :
  forecast [(Sample.points_here, Sample.ok Sample.point);
            (Sample.forecast_url, Sample.ok (Sample.forecast_of Sample.week))]
    40.5%float (-105.5)%float Sample.w0 =
  (rbind (map_result (forecast_entry Sample.float_repr Sample.str_repr)
            [Sample.period "Today" 61; Sample.period "Tonight" 38;
             Sample.period "Monday" 64; Sample.period "Monday Night" 40;
             Sample.period "Tuesday" 58])
         (fun blocks => Ok (join SEPARATOR blocks)),
   mkWorld [Sample.points_here; Sample.forecast_url] []).
Proof. run. Qed.

Example forecast_entry_today :
  forecast_entry Sample.float_repr Sample.str_repr (Sample.period "Today" 61) =
  Ok (NL ++ "            Today:" ++
      NL ++ "            Temperature: 61" ++ DEGREE ++ "F" ++
      NL ++ "            Wind: 5 mph NW" ++
      NL ++ "            Forecast: Clear." ++
      NL ++ "            ").
Proof. run. Qed.

(** An empty list of periods. *)
Lemma getForecast_no_periods_witness :
  forecast [(Sample.points_here, Sample.ok Sample.point);
            (Sample.forecast_url, Sample.ok (Sample.forecast_of []))]
    40.5%float (-105.5)%float Sample.w0 =
  (Ok "", mkWorld [Sample.points_here; Sample.forecast_url] []).
Proof.
  apply (getForecast_no_periods _ _ _ _ _ _ _ _ Sample.w0
           (mkWorld [Sample.points_here] []) _ Sample.point
           (PStr Sample.forecast_url) (Sample.forecast_of [])).
  - run.
  - reflexivity.
  - run.
  - reflexivity.
Defined.

(** The points answer is the empty object. *)
Lemma getForecast_empty_object_witness :
  forecast [(Sample.points_here, Sample.ok (PDict []))]
    40.5%float (-105.5)%float Sample.w0 =
  (Ok "Unable to fetch forecast data for this location.",
   mkWorld [Sample.points_here] []).
Proof.
  refine (getForecast_empty_object Sample.float_repr Sample.str_repr Sample.exn_str
            Sample.json_loads
            (Sample.transport [(Sample.points_here, Sample.ok (PDict []))])
            Sample.hashable_slices 40.5%float (-105.5)%float Sample.w0 200 "{}" _ _ _).
  - reflexivity.
  - lia.
  - reflexivity.
Defined.

(** ** The further properties on the sample network *)

Local Abbreviation edge_alerts table :=
  (getAlerts Sample.float_repr Sample.str_repr Sample.exn_str Edge.json_loads
     (Sample.transport table)).
Local Abbreviation edge_forecast table :=
  (getForecast Sample.float_repr Sample.str_repr Sample.exn_str Edge.json_loads
     (Sample.transport table) Sample.hashable_slices).

Lemma makeNwsRequest_never_raises_witness :
  request [] (PStr Sample.alerts_CA) Sample.w0 <>
  (Raise (TransportError "All connection attempts failed"),
   mkWorld [Sample.alerts_CA] []).
Proof. apply makeNwsRequest_never_raises. Defined.

Lemma makeNwsRequest_data_from_response_witness :
  exists u status_code content,
    PStr Sample.alerts_CA = PStr u /\
    Sample.transport [(Sample.alerts_CA, Sample.ok Sample.two_alerts)]
      (requests Sample.w0) u = Response status_code content /\
    200 <= status_code <= 299 /\
    Sample.json_loads content = Some Sample.two_alerts /\
    mkWorld [Sample.alerts_CA] [] = after_success Sample.w0 u.
Proof.
  apply (makeNwsRequest_data_from_response Sample.float_repr Sample.str_repr
           Sample.exn_str Sample.json_loads
           (Sample.transport [(Sample.alerts_CA, Sample.ok Sample.two_alerts)])
           (PStr Sample.alerts_CA) Sample.two_alerts Sample.w0
           (mkWorld [Sample.alerts_CA] [])).
  - run.
  - unfold Sample.two_alerts. discriminate.
Defined.

(** A 503 answer: one request, one line, [None]. *)
Lemma makeNwsRequest_one_request_witness :
  requests
    (mkWorld [Sample.alerts_CA]
       ["Error making request to https://api.weather.gov/alerts/active/area/CA: Error response 503"]) =
  (requests Sample.w0 ++ [Sample.alerts_CA])%list /\
  (stdout
     (mkWorld [Sample.alerts_CA]
        ["Error making request to https://api.weather.gov/alerts/active/area/CA: Error response 503"]) =
   stdout Sample.w0 \/
   Ok PNone = Ok PNone /\
   exists e,
     stdout
       (mkWorld [Sample.alerts_CA]
          ["Error making request to https://api.weather.gov/alerts/active/area/CA: Error response 503"]) =
     (stdout Sample.w0 ++
      [error_line Sample.float_repr Sample.str_repr Sample.exn_str
         (PStr Sample.alerts_CA) e])%list).
Proof.
  apply (makeNwsRequest_one_request Sample.float_repr Sample.str_repr Sample.exn_str
           Sample.json_loads
           (Sample.transport [(Sample.alerts_CA, Response 503 "Service Unavailable")])).
  run.
Defined.

Lemma makeNwsRequest_success_witness :
  request [(Sample.alerts_CA, Sample.ok Sample.no_alerts)] (PStr Sample.alerts_CA)
    Sample.w0 =
  (Ok Sample.no_alerts, after_success Sample.w0 Sample.alerts_CA).
Proof.
  refine (makeNwsRequest_success Sample.float_repr Sample.str_repr Sample.exn_str
            Sample.json_loads
            (Sample.transport [(Sample.alerts_CA, Sample.ok Sample.no_alerts)])
            Sample.alerts_CA Sample.w0 200 (Sample.dumps Sample.no_alerts)
            Sample.no_alerts _ _ _).
  - reflexivity.
  - lia.
  - reflexivity.
Defined.

Lemma formatAlert_succeeds_iff_witness :
  exists block,
    formatAlert Sample.float_repr Sample.str_repr Sample.quiet_alert = Ok block.
Proof.
  apply (proj2 (formatAlert_succeeds_iff Sample.float_repr Sample.str_repr
                  Sample.quiet_alert)).
  do 2 eexists. split; reflexivity.
Defined.

(** A string, an object without ["properties"], and ["properties": null]. *)
Lemma formatAlert_errors_witness :
  formatAlert Sample.float_repr Sample.str_repr (PStr "alert") = Raise TypeError /\
  formatAlert Sample.float_repr Sample.str_repr (PDict []) =
    Raise (KeyError "properties") /\
  formatAlert Sample.float_repr Sample.str_repr (PDict [("properties", PNone)]) =
    Raise AttributeError.
Proof.
  destruct (formatAlert_errors Sample.float_repr Sample.str_repr)
    as (Hvalue & Hkey & Hprops).
  split; [| split].
  - apply Hvalue. intros d. discriminate.
  - apply Hkey. reflexivity.
  - apply (Hprops _ PNone); [reflexivity | intros fields; discriminate].
Defined.

Lemma formatAlert_reads_five_fields_witness :
  formatAlert Sample.float_repr Sample.str_repr (PDict Edge.tagged_alert) =
  formatAlert Sample.float_repr Sample.str_repr Sample.quiet_alert.
Proof.
  refine (formatAlert_reads_five_fields Sample.float_repr Sample.str_repr
            Edge.tagged_alert
            [("properties",
              PDict [("event", PStr "Flood Watch");
                     ("areaDesc", PStr "Larimer County")])]
            [("headline", PStr "Flood Watch issued"); ("event", PStr "Flood Watch");
             ("areaDesc", PStr "Larimer County"); ("urgency", PStr "Future")]
            [("event", PStr "Flood Watch"); ("areaDesc", PStr "Larimer County")]
            eq_refl eq_refl _).
  intros key Hin. unfold alert_fields in Hin. cbn [In] in Hin.
  repeat (destruct Hin as [<- | Hin]; [reflexivity |]). contradiction.
Defined.

(** One request also when the handler raises. *)
Lemma getAlerts_one_request_witness :
  requests (mkWorld [Sample.alerts_CA] []) =
  (requests Sample.w0 ++ [alerts_url "CA"])%list /\
  (stdout (mkWorld [Sample.alerts_CA] []) = stdout Sample.w0 \/
   exists line,
     stdout (mkWorld [Sample.alerts_CA] []) = (stdout Sample.w0 ++ [line])%list).
Proof.
  apply (getAlerts_one_request Sample.float_repr Sample.str_repr Sample.exn_str
           Sample.json_loads
           (Sample.transport [(Sample.alerts_CA, Sample.ok (PInt 5))])
           "CA" Sample.w0 _ (Raise TypeError)).
  run.
Defined.

(** The adapter returns the empty list. *)
Lemma getAlerts_succeeds_iff_witness :
  exists text,
    edge_alerts [(Sample.alerts_CA, Sample.ok (PList []))] "CA" Sample.w0 =
    (Ok text, mkWorld [Sample.alerts_CA] []).
Proof.
  refine (proj2 (getAlerts_succeeds_iff Sample.float_repr Sample.str_repr
                   Sample.exn_str Edge.json_loads
                   (Sample.transport [(Sample.alerts_CA, Sample.ok (PList []))])
                   "CA" Sample.w0 _ (PList []) _) _).
  - run.
  - left. reflexivity.
Defined.

Lemma getAlerts_unable_iff_witness :
  alerts [(Sample.alerts_CA, Sample.ok Sample.no_features)] "CA" Sample.w0 =
  (Ok "Unable to fetch alerts or no alerts found.", mkWorld [Sample.alerts_CA] []).
Proof.
  refine (proj2 (getAlerts_unable_iff Sample.float_repr Sample.str_repr
                   Sample.exn_str Sample.json_loads
                   (Sample.transport [(Sample.alerts_CA, Sample.ok Sample.no_features)])
                   "CA" Sample.w0 _ Sample.no_features _) _).
  - run.
  - right. reflexivity.
Defined.

(** ["features": null]. *)
Lemma getAlerts_no_alerts_iff_witness :
  edge_alerts [(Sample.alerts_CA, Sample.ok Edge.null_features)] "CA" Sample.w0 =
  (Ok "No active alerts for this state.", mkWorld [Sample.alerts_CA] []).
Proof.
  refine (proj2 (getAlerts_no_alerts_iff Sample.float_repr Sample.str_repr
                   Sample.exn_str Edge.json_loads
                   (Sample.transport [(Sample.alerts_CA, Sample.ok Edge.null_features)])
                   "CA" Sample.w0 _ Edge.null_features _) _).
  - run.
  - exists [("features", PNone)], PNone. split; [reflexivity | split; reflexivity].
Defined.

Lemma getAlerts_never_empty_witness :
  "No active alerts for this state." <> "".
Proof.
  apply (getAlerts_never_empty Sample.float_repr Sample.str_repr Sample.exn_str
           Sample.json_loads
           (Sample.transport [(Sample.alerts_CA, Sample.ok Sample.no_alerts)])
           "CA" _ Sample.w0 (mkWorld [Sample.alerts_CA] [])).
  run.
Defined.

Lemma getAlerts_escaping_exceptions_witness :
  KeyError "properties" = TypeError \/
  KeyError "properties" = KeyError "properties" \/
  KeyError "properties" = AttributeError.
Proof.
  apply (getAlerts_escaping_exceptions Sample.float_repr Sample.str_repr
           Sample.exn_str Sample.json_loads
           (Sample.transport [(Sample.alerts_CA, Sample.ok Sample.bare_feature)])
           "CA" Sample.w0 (mkWorld [Sample.alerts_CA] [])).
  run.
Defined.

(** Temperature and wind speed are missing: the temperature is reported. *)
Lemma forecast_entry_missing_key_witness :
  forecast_entry Sample.float_repr Sample.str_repr (PDict Edge.partial_period) =
  Raise (KeyError "temperature").
Proof.
  apply (proj2 (forecast_entry_missing_key Sample.float_repr Sample.str_repr
                  Edge.partial_period (KeyError "temperature"))).
  eexists. split; reflexivity.
Defined.

(** Two requests, the second to the URL of the points answer. *)
Lemma getForecast_requests_witness :
  exists points_data w1,
    request [(Sample.points_here, Sample.ok Sample.point);
             (Sample.forecast_url, Sample.ok (Sample.forecast_of Sample.week))]
      (PStr (points_url Sample.float_repr 40.5%float (-105.5)%float)) Sample.w0 =
    (Ok points_data, w1) /\
    requests w1 =
    (requests Sample.w0 ++ [points_url Sample.float_repr 40.5%float (-105.5)%float])%list /\
    (requests (mkWorld [Sample.points_here; Sample.forecast_url] []) = requests w1 \/
     exists u,
       nested_field points_data "properties" "forecast" = Some (PStr u) /\
       requests (mkWorld [Sample.points_here; Sample.forecast_url] []) =
       (requests w1 ++ [u])%list).
Proof.
  eapply (getForecast_requests Sample.float_repr Sample.str_repr Sample.exn_str
            Sample.json_loads
            (Sample.transport
               [(Sample.points_here, Sample.ok Sample.point);
                (Sample.forecast_url, Sample.ok (Sample.forecast_of Sample.week))])
            Sample.hashable_slices 40.5%float (-105.5)%float Sample.w0).
  reflexivity.
Defined.

(** The points answer is the empty list. *)
Lemma getForecast_first_fallback_iff_witness :
  exists w',
    edge_forecast [(Sample.points_here, Sample.ok (PList []))]
      40.5%float (-105.5)%float Sample.w0 =
    (Ok "Unable to fetch forecast data for this location.", w').
Proof.
  refine (proj2 (getForecast_first_fallback_iff Sample.float_repr Sample.str_repr
                   Sample.exn_str Edge.json_loads
                   (Sample.transport [(Sample.points_here, Sample.ok (PList []))])
                   Sample.hashable_slices 40.5%float (-105.5)%float Sample.w0
                   (mkWorld [Sample.points_here] []) (PList []) _) _).
  - run.
  - reflexivity.
Defined.

(** The forecast answer is the empty object. *)
Lemma getForecast_second_fallback_iff_witness :
  forecast [(Sample.points_here, Sample.ok Sample.point);
            (Sample.forecast_url, Sample.ok (PDict []))]
    40.5%float (-105.5)%float Sample.w0 =
  (Ok "Unable to fetch detailed forecast.",
   mkWorld [Sample.points_here; Sample.forecast_url] []).
Proof.
  refine (proj2 (getForecast_second_fallback_iff Sample.float_repr Sample.str_repr
                   Sample.exn_str Sample.json_loads
                   (Sample.transport
                      [(Sample.points_here, Sample.ok Sample.point);
                       (Sample.forecast_url, Sample.ok (PDict []))])
                   Sample.hashable_slices 40.5%float (-105.5)%float Sample.w0
                   (mkWorld [Sample.points_here] [])
                   (mkWorld [Sample.points_here; Sample.forecast_url] [])
                   Sample.point (PStr Sample.forecast_url) (PDict []) _ _ _) _).
  - run.
  - reflexivity.
  - run.
  - reflexivity.
Defined.

(** ["forecast": null] in the points answer. *)
Lemma getForecast_url_not_a_string_witness :
  edge_forecast [(Sample.points_here, Sample.ok Edge.point_with_null_url)]
    40.5%float (-105.5)%float Sample.w0 =
  (Ok "Unable to fetch detailed forecast.",
   mkWorld [Sample.points_here]
     ["Error making request to None: Invalid type for url."]).
Proof.
  refine (getForecast_url_not_a_string Sample.float_repr Sample.str_repr
            Sample.exn_str Edge.json_loads
            (Sample.transport [(Sample.points_here, Sample.ok Edge.point_with_null_url)])
            Sample.hashable_slices 40.5%float (-105.5)%float Sample.w0 (mkWorld [Sample.points_here] [])
            Edge.point_with_null_url PNone _ _ _).
  - run.
  - reflexivity.
  - intros u. discriminate.
Defined.

(** Five periods and a sixth element that is no period: a text still. *)
Lemma getForecast_succeeds_iff_first_five_witness :
  exists text,
    edge_forecast
      [(Sample.points_here, Sample.ok Sample.point);
       (Sample.forecast_url, Sample.ok (Sample.forecast_of Edge.five_then_junk))]
      40.5%float (-105.5)%float Sample.w0 =
    (Ok text, mkWorld [Sample.points_here; Sample.forecast_url] []).
Proof.
  refine (proj2 (getForecast_succeeds_iff_first_five Sample.float_repr
                   Sample.str_repr Sample.exn_str Edge.json_loads
                   (Sample.transport
                      [(Sample.points_here, Sample.ok Sample.point);
                       (Sample.forecast_url,
                        Sample.ok (Sample.forecast_of Edge.five_then_junk))])
                   Sample.hashable_slices 40.5%float (-105.5)%float Sample.w0
                   (mkWorld [Sample.points_here] [])
                   (mkWorld [Sample.points_here; Sample.forecast_url] [])
                   Sample.point (PStr Sample.forecast_url)
                   (Sample.forecast_of Edge.five_then_junk) Edge.five_then_junk
                   _ _ _ _) _).
  - run.
  - reflexivity.
  - run.
  - reflexivity.
  - unfold Edge.five_then_junk. cbn [firstn]. sample_periods.
Defined.

Lemma getForecast_empty_only_without_periods_witness :
  nested_field (Sample.forecast_of []) "properties" "periods" = Some (PList []) \/
  nested_field (Sample.forecast_of []) "properties" "periods" = Some (PStr "").
Proof.
  refine (getForecast_empty_only_without_periods Sample.float_repr Sample.str_repr
            Sample.exn_str Sample.json_loads
            (Sample.transport
               [(Sample.points_here, Sample.ok Sample.point);
                (Sample.forecast_url, Sample.ok (Sample.forecast_of []))])
            Sample.hashable_slices 40.5%float (-105.5)%float Sample.w0
            (mkWorld [Sample.points_here] [])
            (mkWorld [Sample.points_here; Sample.forecast_url] [])
            Sample.point (PStr Sample.forecast_url) (Sample.forecast_of [])
            _ _ _ _).
  - run.
  - reflexivity.
  - run.
  - run.
Defined.

(** An object at [periods], on an interpreter with hashable slices. *)
Lemma getForecast_escaping_exceptions_witness :
  KeyErrorSlice = TypeError \/
  (exists key, KeyErrorSlice = KeyError key /\ In key forecast_keys) \/
  (Sample.hashable_slices = true /\ KeyErrorSlice = KeyErrorSlice).
Proof.
  apply (getForecast_escaping_exceptions Sample.float_repr Sample.str_repr
           Sample.exn_str Edge.json_loads
           (Sample.transport
              [(Sample.points_here, Sample.ok Sample.point);
               (Sample.forecast_url, Sample.ok Edge.keyed_periods)])
           Sample.hashable_slices 40.5%float (-105.5)%float Sample.w0
           (mkWorld [Sample.points_here; Sample.forecast_url] [])).
  run.
Defined.

(** A state with a line feed: httpx refuses the URL and sends nothing; the
    call is on record, the adapter returns [None] and the handler falls
    back. *)
Example getAlerts_refused_url :
  alerts [(Sample.alerts_CA ++ NL,
           Refused "Invalid non-printable ASCII character in URL")]
    ("CA" ++ NL) Sample.w0 =
  (Ok "Unable to fetch alerts or no alerts found.",
   mkWorld [Sample.alerts_CA ++ NL]
     ["Error making request to " ++ Sample.alerts_CA ++ NL
        ++ ": Invalid non-printable ASCII character in URL"]).
Proof. run. Qed.

(** The same answer on an interpreter without them: [TypeError]. *)
Example getForecast_keyed_periods_before_312 :
  getForecast Sample.float_repr Sample.str_repr Sample.exn_str Edge.json_loads
    (Sample.transport
       [(Sample.points_here, Sample.ok Sample.point);
        (Sample.forecast_url, Sample.ok Edge.keyed_periods)])
    false 40.5%float (-105.5)%float Sample.w0 =
  (Raise TypeError, mkWorld [Sample.points_here; Sample.forecast_url] []).
Proof. run. Qed.

